(** * Model selection for the HMM recognizer (my_model_selectors.py)

    A shallow embedding of [ModelSelector] and its four strategies
    ([SelectorConstant], [SelectorBIC], [SelectorDIC], [SelectorCV]).

    Python exceptions are values of [result]; a [try: ... except: ...]
    block is [try_except].  The libraries the module calls (hmmlearn's
    [GaussianHMM], numpy, sklearn's [KFold]) are the fields of the class
    [Library]: the selectors are verified for every implementation of them.
    Floats are the carrier [F] of that class with the operations the module
    uses ([*], [+], [-], [<], [np.log], [np.mean]). *)

From Stdlib Require Import ZArith List Bool String Lia Sorted.
Import ListNotations.
Local Open Scope Z_scope.

Set Implicit Arguments.

(* ================================================================== *)
(** ** Exceptions *)

Inductive exn : Type :=
| AttributeError      (* method call on None *)
| TypeError           (* operand of the wrong type *)
| IndexError
| KeyError
| ValueError          (* raised by KFold *)
| UnboundLocalError
| FitError            (* GaussianHMM.fit failed *)
| ScoreError.         (* GaussianHMM.score failed *)

Inductive result (A : Type) : Type :=
| Ok (a : A)
| Raise (e : exn).

Arguments Ok {A} a.
Arguments Raise {A} e.

Definition bind {A B : Type} (c : result A) (k : A -> result B) : result B :=
  match c with
  | Ok a => k a
  | Raise e => Raise e
  end.

Notation "x <- c ;; k" := (bind c (fun x => k))
  (at level 61, c at next level, right associativity).
Notation "' p <- c ;; k" := (bind c (fun x => match x with p => k end))
  (at level 61, p pattern, c at next level, right associativity).

(** [try: body  except: handler] with a bare [except], which catches every
    exception. *)
Definition try_except {A : Type} (body handler : result A) : result A :=
  match body with
  | Ok a => Ok a
  | Raise _ => handler
  end.

(** [for x in l: s = body x s], stopping at the first exception. *)
Fixpoint for_in {A S : Type} (l : list A) (body : A -> S -> result S) (s : S)
  : result S :=
  match l with
  | [] => Ok s
  | x :: l' =>
      match body x s with
      | Ok s' => for_in l' body s'
      | Raise e => Raise e
      end
  end.

(** [range(lo, hi)] on Python integers. *)
Definition py_range (lo hi : Z) : list Z :=
  map (fun i => lo + Z.of_nat i) (seq 0 (Z.to_nat (hi - lo))).

(** [len(l)] *)
Definition len {A : Type} (l : list A) : Z := Z.of_nat (List.length l).

(** [d[k]] on a dict kept in insertion order. *)
Fixpoint dict_get {V : Type} (d : list (string * V)) (k : string) : result V :=
  match d with
  | [] => Raise KeyError
  | (k', v) :: d' => if String.eqb k' k then Ok v else dict_get d' k
  end.

(* ================================================================== *)
(** ** The libraries the module imports *)

Class Library : Type := {
  (** Python floats and the numpy functions applied to them *)
  F : Type;
  float_of_int : Z -> F;          (* int operand of a float operation *)
  fadd : F -> F -> F;
  fsub : F -> F -> F;
  fmul : F -> F -> F;
  flt : F -> F -> bool;           (* a < b *)
  inf : F;                        (* float("Inf") *)
  neg_inf : F;                    (* float("-Inf") *)
  np_log : Z -> F;                (* np.log of an int *)
  np_mean : list F -> F;          (* np.mean / np.average of a list of floats *)
  (** hmmlearn: the parameters estimated by [fit], or None when it raises;
      arguments n_components, random_state, X, lengths *)
  Theta : Type;
  em_fit : Z -> Z -> list (list F) -> list Z -> option Theta;
  (** hmmlearn: the log-likelihood computed by [score], or None when it
      raises; arguments n_components, parameters, X, lengths *)
  em_score : Z -> Theta -> list (list F) -> list Z -> option F;
  (** sklearn: the folds (train_idx, test_idx) of
      [KFold(n_splits, random_state).split] over n_samples items;
      arguments n_splits, random_state, n_samples *)
  KFold_split : Z -> Z -> nat -> result (list (list nat * list nat))
}.

Section Selectors.

Context {L : Library}.

(** [a > b] on floats *)
Definition fgt (a b : F) : bool := flt b a.

(** An observation array: one row per frame, one column per feature. *)
Definition Obs : Type := list (list F).

(** A fitted [GaussianHMM] object.  The constructor stores [n_components]
    and [random_state]; [fit] stores the estimated parameters and returns
    the object itself. *)
Record GaussianHMM : Type := mkHMM {
  n_components : Z;
  hmm_random_state : Z;
  fitted : Theta
}.

(** [GaussianHMM(n_components=n, covariance_type="diag", n_iter=1000,
                 random_state=rs, verbose=False).fit(X, lengths)] *)
Definition GaussianHMM_fit (n rs : Z) (X : Obs) (lengths : list Z)
  : result GaussianHMM :=
  match em_fit n rs X lengths with
  | Some th => Ok (mkHMM n rs th)
  | None => Raise FitError
  end.

(** [model.score(X, lengths)] where [model] is a fitted object *)
Definition GaussianHMM_score (m : GaussianHMM) (X : Obs) (lengths : list Z)
  : result F :=
  match em_score (n_components m) (fitted m) X lengths with
  | Some logL => Ok logL
  | None => Raise ScoreError
  end.

(** [base_hmm.score(X, lengths)] where [base_hmm] may be None *)
Definition method_score (base_hmm : option GaussianHMM) (X : Obs)
  (lengths : list Z) : result F :=
  match base_hmm with
  | None => Raise AttributeError
  | Some m => GaussianHMM_score m X lengths
  end.

(** [len(X[0])] *)
Definition len_row0 (X : Obs) : result Z :=
  match X with
  | [] => Raise IndexError
  | row :: _ => Ok (len row)
  end.

(* ================================================================== *)
(** ** ModelSelector *)

Record ModelSelector : Type := mkSelector {
  words : list (string * list Obs);
  hwords : list (string * (Obs * list Z));
  sequences : list Obs;
  X : Obs;
  lengths : list Z;
  this_word : string;
  n_constant : Z;
  min_n_components : Z;
  max_n_components : Z;
  random_state : Z;
  verbose : bool
}.

(** [ModelSelector.__init__] *)
Definition ModelSelector_init
  (all_word_sequences : list (string * list Obs))
  (all_word_Xlengths : list (string * (Obs * list Z)))
  (this_word : string)
  (n_constant min_n_components max_n_components random_state : Z)
  (verbose : bool) : result ModelSelector :=
  sequences <- dict_get all_word_sequences this_word ;;
  ' (X, lengths) <- dict_get all_word_Xlengths this_word ;;
  Ok (mkSelector all_word_sequences all_word_Xlengths sequences X lengths
        this_word n_constant min_n_components max_n_components random_state
        verbose).

(** [ModelSelector.base_model]: the fitted model, or None when the fit
    raises (the [print] under [verbose] is not modelled). *)
Definition base_model (self : ModelSelector) (num_states : Z)
  : result (option GaussianHMM) :=
  try_except
    (hmm_model <- GaussianHMM_fit num_states (random_state self) (X self)
                    (lengths self) ;;
     Ok (Some hmm_model))
    (Ok None).

(** The candidates [range(self.min_n_components, self.max_n_components + 1)] *)
Definition candidates (self : ModelSelector) : list Z :=
  py_range (min_n_components self) (max_n_components self + 1).

(* ================================================================== *)
(** ** SelectorConstant *)

Definition SelectorConstant_select (self : ModelSelector)
  : result (option GaussianHMM) :=
  let best_num_components := n_constant self in
  base_model self best_num_components.

(* ================================================================== *)
(** ** SelectorBIC *)

(** Lines 86-90: the score of the candidate [base_hmm] for [n_components] *)
Definition SelectorBIC_score (self : ModelSelector)
  (base_hmm : option GaussianHMM) (n_components : Z) : result F :=
  logL <- method_score base_hmm (X self) (lengths self) ;;
  let logN := np_log (len (X self)) in
  let n := n_components in
  d <- len_row0 (X self) ;;
  let p := n * n + 2 * n * d - 1 in
  Ok (fadd (fmul (float_of_int (-2)) logL) (fmul (float_of_int p) logN)).

Definition SelectorBIC_body (self : ModelSelector) (n_components : Z)
  (st : F * option GaussianHMM) : result (F * option GaussianHMM) :=
  let '(best_score, best_model) := st in
  base_hmm <- base_model self n_components ;;
  score <- SelectorBIC_score self base_hmm n_components ;;
  if flt score best_score
  then Ok (score, base_hmm)
  else Ok (best_score, best_model).

Definition SelectorBIC_select (self : ModelSelector)
  : result (option GaussianHMM) :=
  let best_score := inf in
  let best_model := None in
  try_except
    (' (_, best_model) <- for_in (candidates self) (SelectorBIC_body self)
                            (best_score, best_model) ;;
     Ok best_model)
    (base_model self (n_constant self)).

(* ================================================================== *)
(** ** SelectorDIC *)

(** The values the names of [SelectorDIC.select] are bound to: the method
    applies numpy and [-] to the model object itself, so its locals are
    kept dynamically typed. *)
Inductive pyval : Type :=
| PyNone
| PyModel (m : GaussianHMM)
| PyFloat (f : F)
| PyFloats (l : list F).

Definition py_of_model (o : option GaussianHMM) : pyval :=
  match o with
  | None => PyNone
  | Some m => PyModel m
  end.

(** [np.mean(a)]: the mean of a float or of a list of floats; an object
    that is not numeric ends in [TypeError] (numpy divides the object by the
    item count). *)
Definition np_mean_py (a : pyval) : result pyval :=
  match a with
  | PyFloats l => Ok (PyFloat (np_mean l))
  | PyFloat f => Ok (PyFloat f)
  | PyNone => Raise TypeError
  | PyModel _ => Raise TypeError
  end.

(** [a - b]: defined on floats; [GaussianHMM] and [None] have no [__sub__]. *)
Definition py_sub (a b : pyval) : result pyval :=
  match a, b with
  | PyFloat x, PyFloat y => Ok (PyFloat (fsub x y))
  | _, _ => Raise TypeError
  end.

(** [a > b] *)
Definition py_gt (a b : pyval) : result bool :=
  match a, b with
  | PyFloat x, PyFloat y => Ok (fgt x y)
  | _, _ => Raise TypeError
  end.

(** Lines 121-125: the inner loop over [self.words] *)
Definition SelectorDIC_scores (self : ModelSelector)
  (base_hmm : option GaussianHMM) : result (list F) :=
  for_in (map fst (words self))
    (fun word scores =>
       if negb (String.eqb word (this_word self))
       then
         ' (x_word, word_len) <- dict_get (hwords self) word ;;
         logL <- method_score base_hmm x_word word_len ;;
         Ok (scores ++ [logL])
       else Ok scores)
    [].

Definition SelectorDIC_body (self : ModelSelector) (n_components : Z)
  (st : pyval * option GaussianHMM) : result (pyval * option GaussianHMM) :=
  let '(best_score, best_model) := st in
  base_hmm <- base_model self n_components ;;
  let score := py_of_model base_hmm in
  scores <- SelectorDIC_scores self base_hmm ;;
  mean <- np_mean_py (py_of_model base_hmm) ;;
  dic_score <- py_sub score mean ;;
  better <- py_gt dic_score best_score ;;
  if (better : bool)
  then Ok (dic_score, base_hmm)
  else Ok (best_score, best_model).

Definition SelectorDIC_select (self : ModelSelector)
  : result (option GaussianHMM) :=
  let best_score := PyFloat neg_inf in
  let best_model := None in
  try_except
    (' (_, best_model) <- for_in (candidates self) (SelectorDIC_body self)
                            (best_score, best_model) ;;
     Ok best_model)
    (base_model self (n_constant self)).

(* ================================================================== *)
(** ** SelectorCV *)

(** Modelled from the spec: [asl_utils.combine_sequences] is not among the
    sources.  By the data model of the spec, the sequences named by the
    indices are concatenated into one observation array, with the list of
    their lengths in frames. *)
Fixpoint combine_sequences (split_index_list : list nat)
  (sequences : list Obs) : result (Obs * list Z) :=
  match split_index_list with
  | [] => Ok ([], [])
  | idx :: rest =>
      match nth_error sequences idx with
      | None => Raise IndexError
      | Some s =>
          ' (X, lengths) <- combine_sequences rest sequences ;;
          Ok (s ++ X, len s :: lengths)
      end
  end.

(** Reading a local name that may not be bound yet. *)
Definition read_local {A : Type} (v : option A) : result A :=
  match v with
  | Some a => Ok a
  | None => Raise UnboundLocalError
  end.

(** Lines 153-158: one fold.  The local [base_hmm] is rebound by every
    fold and outlives the loop. *)
Definition SelectorCV_fold (self : ModelSelector) (n_components : Z)
  (fold : list nat * list nat) (st : list F * option GaussianHMM)
  : result (list F * option GaussianHMM) :=
  let '(train_idx, test_idx) := fold in
  let '(scores, _) := st in
  ' (x_train, train_len) <- combine_sequences train_idx (sequences self) ;;
  base_hmm <- GaussianHMM_fit n_components (random_state self) x_train
                train_len ;;
  ' (x_test, test_len) <- combine_sequences test_idx (sequences self) ;;
  logL <- GaussianHMM_score base_hmm x_test test_len ;;
  Ok (scores ++ [logL], Some base_hmm).

(** The state of the outer loop: [best_score], [best_model] and the local
    [base_hmm] (None while unbound). *)
Definition SelectorCV_body (self : ModelSelector) (splits : Z)
  (n_components : Z) (st : F * option GaussianHMM * option GaussianHMM)
  : result (F * option GaussianHMM * option GaussianHMM) :=
  let '(best_score, best_model, base_hmm) := st in
  folds <- KFold_split splits (random_state self)
             (List.length (sequences self)) ;;
  ' (scores, base_hmm) <- for_in folds (SelectorCV_fold self n_components)
                            ([], base_hmm) ;;
  let score := np_mean scores in
  if fgt score best_score
  then
    m <- read_local base_hmm ;;
    Ok (score, Some m, base_hmm)
  else Ok (best_score, best_model, base_hmm).

Definition SelectorCV_select (self : ModelSelector)
  : result (option GaussianHMM) :=
  let best_score := neg_inf in
  let best_model := None in
  let splits := Z.min 3 (len (sequences self)) in
  try_except
    (' (_, best_model, _) <- for_in (candidates self)
                               (SelectorCV_body self splits)
                               (best_score, best_model, None) ;;
     Ok best_model)
    (base_model self (n_constant self)).

(* ================================================================== *)
(** ** The four strategies *)

Inductive strategy : Type :=
| Constant
| BIC
| DIC
| CV.

Definition select (s : strategy) (self : ModelSelector)
  : result (option GaussianHMM) :=
  match s with
  | Constant => SelectorConstant_select self
  | BIC => SelectorBIC_select self
  | DIC => SelectorDIC_select self
  | CV => SelectorCV_select self
  end.

End Selectors.

(* ================================================================== *)
(** ** The selection criteria as the specification words them *)

Section Specification.

Context {L : Library}.

Fixpoint mapM {A B : Type} (f : A -> result B) (l : list A)
  : result (list B) :=
  match l with
  | [] => Ok []
  | a :: l' =>
      b <- f a ;;
      bs <- mapM f l' ;;
      Ok (b :: bs)
  end.

Fixpoint last_opt {A : Type} (l : list A) : option A :=
  match l with
  | [] => None
  | a :: l' =>
      match l' with
      | [] => Some a
      | _ :: _ => last_opt l'
      end
  end.

(** The search policy shared by the strategies: the current best is
    replaced only by a candidate that is strictly better. *)
Definition pick {M : Type} (better : F -> F -> bool) (st : F * option M)
  (s : F) (m : M) : F * option M :=
  if better s (fst st) then (s, Some m) else st.

Fixpoint scan {M : Type} (better : F -> F -> bool) (sc : Z -> F)
  (md : Z -> M) (l : list Z) (st : F * option M) : F * option M :=
  match l with
  | [] => st
  | n :: l' => scan better sc md l' (pick better st (sc n) (md n))
  end.

(** The candidate model: the fit of the category's own data with [n]
    states. *)
Definition fit_spec (self : ModelSelector) (n : Z) : result GaussianHMM :=
  GaussianHMM_fit n (random_state self) (X self) (lengths self).

(** p(n) = n^2 + 2*n*d - 1 *)
Definition p_spec (n d : Z) : Z := n ^ 2 + 2 * n * d - 1.

(** BIC(n) = -2 * logL(n) + p(n) * log(N), with N the number of frames of
    the category and d the number of features of a frame. *)
Definition BIC_spec (self : ModelSelector) (n : Z) : result F :=
  m <- fit_spec self n ;;
  logL <- GaussianHMM_score m (X self) (lengths self) ;;
  d <- len_row0 (X self) ;;
  let N := len (X self) in
  Ok (fadd (fmul (float_of_int (-2)) logL)
           (fmul (float_of_int (p_spec n d)) (np_log N))).

(** BIC = -2 * logL + p * log(N) for a model with [n] states, [d] the
    feature dimensionality and [N] the number of observation frames. *)
Definition BIC_formula (logL : F) (n d N : Z) : F :=
  fadd (fmul (float_of_int (-2)) logL)
       (fmul (float_of_int (p_spec n d)) (np_log N)).

(** BIC selection with the failure policy of section 4.3: a candidate
    that cannot be fitted or scored contributes no score and the search
    continues; the constant model is the fallback when no candidate is
    left. *)
Definition SelectorBIC_skipping (self : ModelSelector)
  : result (option GaussianHMM) :=
  let step st n :=
    match fit_spec self n, BIC_spec self n with
    | Ok m, Ok s => pick flt st s m
    | _, _ => st
    end in
  match snd (fold_left step (candidates self) (inf, None)) with
  | Some m => Ok (Some m)
  | None => base_model self (n_constant self)
  end.

(** The categories other than the selector's own. *)
Definition other_words (self : ModelSelector) : list string :=
  filter (fun w => negb (String.eqb w (this_word self)))
         (map fst (words self)).

(** DIC(n) = logL_own(n) - mean(logL_other(n) for each other category) *)
Definition DIC_spec (self : ModelSelector) (n : Z) : result F :=
  m <- fit_spec self n ;;
  logL_own <- GaussianHMM_score m (X self) (lengths self) ;;
  logL_other <- mapM (fun w =>
                        ' (x_word, word_len) <- dict_get (hwords self) w ;;
                        GaussianHMM_score m x_word word_len)
                     (other_words self) ;;
  Ok (fsub logL_own (np_mean logL_other)).

(** Select the n maximizing DIC(n), first-encountered maximum winning
    ties; any error falls back to the constant model. *)
Definition SelectorDIC_spec (self : ModelSelector)
  : result (option GaussianHMM) :=
  try_except
    (st <- for_in (candidates self)
             (fun n st =>
                m <- fit_spec self n ;;
                s <- DIC_spec self n ;;
                Ok (pick fgt st s m))
             (neg_inf, None) ;;
     Ok (snd st))
    (base_model self (n_constant self)).

(** One fold of the cross-validation: fit on the training fold, score the
    held-out fold. *)
Definition CV_fold_spec (self : ModelSelector) (n : Z)
  (fold : list nat * list nat) : result (F * GaussianHMM) :=
  ' (x_train, train_len) <- combine_sequences (fst fold) (sequences self) ;;
  m <- GaussianHMM_fit n (random_state self) x_train train_len ;;
  ' (x_test, test_len) <- combine_sequences (snd fold) (sequences self) ;;
  logL <- GaussianHMM_score m x_test test_len ;;
  Ok (logL, m).

(** The folds: k-fold partition with k = min(3, number of sequences). *)
Definition CV_folds (self : ModelSelector)
  : result (list (list nat * list nat)) :=
  KFold_split (Z.min 3 (len (sequences self))) (random_state self)
    (List.length (sequences self)).

(** The candidate's score: the average of the held-out log-likelihoods. *)
Definition CV_spec (self : ModelSelector) (n : Z) : result F :=
  folds <- CV_folds self ;;
  rs <- mapM (CV_fold_spec self n) folds ;;
  Ok (np_mean (map fst rs)).

(** The model fitted on the training split of the last fold. *)
Definition CV_last_fold_model (self : ModelSelector) (n : Z)
  : result GaussianHMM :=
  folds <- CV_folds self ;;
  match last_opt folds with
  | None => Raise ValueError
  | Some fold =>
      ' (x_train, train_len) <- combine_sequences (fst fold)
                                  (sequences self) ;;
      GaussianHMM_fit n (random_state self) x_train train_len
  end.

(** The scores of the candidates [l] compare as a total preorder (none of
    them is a NaN). *)
Definition ranked (lt : F -> F -> bool) (sc : Z -> F) (l : list Z) : Prop :=
  forall i j k : Z,
    In i l -> In j l -> In k l ->
    lt (sc i) (sc i) = false /\
    (lt (sc i) (sc j) = true -> lt (sc j) (sc k) = true ->
     lt (sc i) (sc k) = true) /\
    (lt (sc i) (sc j) = true ->
     lt (sc i) (sc k) = true \/ lt (sc k) (sc j) = true).

(** State counts a returned model may have: one of the searched range or
    the constant. *)
Definition admissible (self : ModelSelector) (r : option GaussianHMM)
  : Prop :=
  match r with
  | None => True
  | Some m =>
      min_n_components self <= n_components m <= max_n_components self \/
      n_components m = n_constant self
  end.

(** A model, if any, whose state count is one of the searched range. *)
Definition in_range (self : ModelSelector) (r : option GaussianHMM) : Prop :=
  match r with
  | None => True
  | Some m =>
      min_n_components self <= n_components m <= max_n_components self
  end.

(** [select] returns a model, and an admissible one. *)
Definition returns_usable_model (s : strategy) (self : ModelSelector)
  : Prop :=
  exists m, select s self = Ok (Some m) /\ admissible self (Some m).

(** The fitter fails for every state count but [n_constant], where it
    succeeds on the category's data. *)
Definition fits_only_constant (self : ModelSelector) : Prop :=
  (forall n, n <> n_constant self ->
             forall rs X lengths, em_fit n rs X lengths = None) /\
  exists m, fit_spec self (n_constant self) = Ok m.

End Specification.

(* ================================================================== *)
(** ** A small executable library and corpus *)

Module Demo.

(** Scores: integers with the two infinities. *)
Inductive xnum : Type :=
| NInf
| Num (z : Z)
| PInf.

Definition xlt (a b : xnum) : bool :=
  match a, b with
  | NInf, NInf => false
  | NInf, _ => true
  | Num x, Num y => x <? y
  | Num _, PInf => true
  | _, _ => false
  end.

Definition xadd (a b : xnum) : xnum :=
  match a, b with
  | Num x, Num y => Num (x + y)
  | Num _, i => i
  | i, _ => i
  end.

Definition xneg (a : xnum) : xnum :=
  match a with
  | NInf => PInf
  | Num x => Num (- x)
  | PInf => NInf
  end.

Definition xsub (a b : xnum) : xnum := xadd a (xneg b).

Definition xmul (a b : xnum) : xnum :=
  match a, b with
  | Num x, Num y => Num (x * y)
  | Num x, i => if x <? 0 then xneg i else i
  | i, Num y => if y <? 0 then xneg i else i
  | i, j => if xlt i j then NInf else PInf
  end.

Definition xmean (l : list xnum) : xnum :=
  match fold_left xadd l (Num 0) with
  | Num s => Num (s / len l)
  | i => i
  end.

(** sklearn's KFold without shuffling: k consecutive folds, the first
    [n mod k] of them one item longer; fewer than 2 folds, or more folds
    than items, is a [ValueError]. *)
Fixpoint kfold_from (todo i start q r n : nat) : list (list nat * list nat) :=
  match todo with
  | O => []
  | S todo' =>
      let size := (q + (if Nat.ltb i r then 1 else 0))%nat in
      (seq 0 start ++ seq (start + size) (n - start - size), seq start size)
        :: kfold_from todo' (S i) (start + size)%nat q r n
  end.

Definition KFold_contiguous (n_splits random_state : Z) (n_samples : nat)
  : result (list (list nat * list nat)) :=
  if n_splits <? 2 then Raise ValueError
  else if Z.of_nat n_samples <? n_splits then Raise ValueError
  else
    let k := Z.to_nat n_splits in
    Ok (kfold_from k 0 0 (n_samples / k) (n_samples mod k) n_samples).

(** A library whose fit succeeds where [fit_ok] says so and remembers the
    number of frames it was trained on, and whose score is [loglik] of the
    state count, that number, and the number of scored frames. *)
Definition lib (fit_ok : Z -> bool) (loglik : Z -> Z -> Z -> Z) : Library :=
  {| F := xnum;
     float_of_int := Num;
     fadd := xadd;
     fsub := xsub;
     fmul := xmul;
     flt := xlt;
     inf := PInf;
     neg_inf := NInf;
     np_log := fun z => Num (Z.log2 z);
     np_mean := xmean;
     Theta := Z;
     em_fit := fun n _ X _ => if fit_ok n then Some (len X) else None;
     em_score := fun n th X _ => Some (Num (loglik n th (len X)));
     KFold_split := KFold_contiguous |}.

(** Two categories: "A" with three sequences (2, 3 and 1 frames of two
    features), "B" with one sequence of 2 frames. *)
Definition seqA1 : list (list xnum) := [[Num 1; Num 2]; [Num 3; Num 4]].
Definition seqA2 : list (list xnum) :=
  [[Num 5; Num 6]; [Num 7; Num 8]; [Num 9; Num 10]].
Definition seqA3 : list (list xnum) := [[Num 11; Num 12]].
Definition seqB1 : list (list xnum) := [[Num 0; Num 1]; [Num 1; Num 0]].

Definition selector (fit_ok : Z -> bool) (loglik : Z -> Z -> Z -> Z)
  (n_constant min_n max_n : Z) : @ModelSelector (lib fit_ok loglik) :=
  @mkSelector (lib fit_ok loglik)
    [("A"%string, [seqA1; seqA2; seqA3]); ("B"%string, [seqB1])]
    [("A"%string, (seqA1 ++ seqA2 ++ seqA3, [2; 3; 1]));
     ("B"%string, (seqB1, [2]))]
    [seqA1; seqA2; seqA3]
    (seqA1 ++ seqA2 ++ seqA3)
    [2; 3; 1]
    "A"%string n_constant min_n max_n 14 false.

Definition always (_ : Z) : bool := true.
Definition never (_ : Z) : bool := false.
Definition all_but (k n : Z) : bool := negb (n =? k).
Definition only (k n : Z) : bool := n =? k.

(** The category's own 6 frames are fitted best with 4 states; every
    model fits other data equally. *)
Definition peak4 (n th N : Z) : Z :=
  if N =? 6 then - (20 * (n - 4) * (n - 4)) else 0.

(** Held-out folds are fitted best with 4 states. *)
Definition heldout4 (n th N : Z) : Z := - ((n - 4) * (n - 4)) - th.

(** The model with [n] states fitted on [frames] frames. *)
Definition model {fit_ok : Z -> bool} {loglik : Z -> Z -> Z -> Z}
  (n frames : Z) : @GaussianHMM (lib fit_ok loglik) :=
  @mkHMM (lib fit_ok loglik) n 14 frames.

(** Selectors for category "A": [n_constant = 3] and the range 2..5
    unless said otherwise. *)
Definition all_fit := selector always peak4 3 2 5.
Definition cv_fit := selector always heldout4 3 2 5.
Definition no_fit := selector never peak4 3 2 5.
(** the fit fails with 3 states only; [n_constant = 2] *)
Definition gap_at_3 := selector (all_but 3) peak4 2 2 5.
(** the fit succeeds with 3 states only *)
Definition only_constant_wide := selector (only 3) heldout4 3 2 5.
(** the same with the range 3..3 *)
Definition only_constant := selector (only 3) heldout4 3 3 3.
(** [min_n_components = 5 > max_n_components = 2] *)
Definition empty_range := selector always peak4 3 5 2.

(** BIC(n) of [all_fit] and the average held-out score of [cv_fit]. *)
Definition bic_sc (n : Z) : xnum :=
  Num (40 * ((n - 4) * (n - 4)) + 2 * (n * n + 4 * n - 1)).
Definition cv_sc (n : Z) : xnum := Num (- ((n - 4) * (n - 4)) - 4).

(** The corpus as the two dictionaries [ModelSelector.__init__] takes. *)
Definition corpus_sequences : list (string * list (list (list xnum))) :=
  [("A"%string, [seqA1; seqA2; seqA3]); ("B"%string, [seqB1])].
Definition corpus_Xlengths
  : list (string * (list (list xnum) * list Z)) :=
  [("A"%string, (seqA1 ++ seqA2 ++ seqA3, [2; 3; 1]));
   ("B"%string, (seqB1, [2]))].

(** A library whose fit always succeeds and whose score is always [s]. *)
Definition lib_score (s : xnum) : Library :=
  {| F := xnum;
     float_of_int := Num;
     fadd := xadd;
     fsub := xsub;
     fmul := xmul;
     flt := xlt;
     inf := PInf;
     neg_inf := NInf;
     np_log := fun z => Num (Z.log2 z);
     np_mean := xmean;
     Theta := Z;
     em_fit := fun _ _ X _ => Some (len X);
     em_score := fun _ _ _ _ => Some s;
     KFold_split := KFold_contiguous |}.

(** Category "A" under models that give every data the log-likelihood
    -inf. *)
Definition zero_likelihood : @ModelSelector (lib_score NInf) :=
  @mkSelector (lib_score NInf) corpus_sequences corpus_Xlengths
    [seqA1; seqA2; seqA3] (seqA1 ++ seqA2 ++ seqA3) [2; 3; 1]
    "A"%string 3 2 5 14 false.

(** A category without a single frame. *)
Definition no_frames : @ModelSelector (lib always peak4) :=
  @mkSelector (lib always peak4)
    [("E"%string, [])] [("E"%string, ([], []))] [] [] []
    "E"%string 3 2 5 14 false.

(** Category "B", which has one sequence only. *)
Definition single_sequence : @ModelSelector (lib always heldout4) :=
  @mkSelector (lib always heldout4) corpus_sequences corpus_Xlengths
    [seqB1] seqB1 [2] "B"%string 3 2 5 14 false.

End Demo.

(* ================================================================== *)
(** ** Control flow: binds, loops and ranges *)

Unset Implicit Arguments.

Lemma bind_Ok_inv {A B : Type} (c : result A) (k : A -> result B) (b : B) :
  bind c k = Ok b -> exists a, c = Ok a /\ k a = Ok b.
Proof.
  destruct c as [a|e]; simpl; intros H.
  - exists a. split; [reflexivity | exact H].
  - discriminate H.
Qed.

Tactic Notation "bind_inv" hyp(H) "as" simple_intropattern(a) ident(Ha) :=
  apply bind_Ok_inv in H; destruct H as [a [Ha H]].

Lemma try_except_Ok {A : Type} (body handler : result A) (a : A) :
  body = Ok a -> try_except body handler = Ok a.
Proof. intros ->. reflexivity. Qed.

Lemma try_except_Raise {A : Type} (body handler : result A) (e : exn) :
  body = Raise e -> try_except body handler = handler.
Proof. intros ->. reflexivity. Qed.

Lemma for_in_invariant {A S : Type} (P : S -> Prop)
  (body : A -> S -> result S) (l : list A) :
  (forall x s s', In x l -> P s -> body x s = Ok s' -> P s') ->
  forall s s', P s -> for_in l body s = Ok s' -> P s'.
Proof.
  induction l as [|x l IH]; intros Hstep s s' Hs Hrun; simpl in Hrun.
  - injection Hrun as <-. exact Hs.
  - destruct (body x s) as [s1|e] eqn:Hb; [|discriminate Hrun].
    apply (IH (fun y t t' Hy => Hstep y t t' (or_intror Hy)) s1 s').
    + apply (Hstep x s s1); [left; reflexivity | exact Hs | exact Hb].
    + exact Hrun.
Qed.

Lemma for_in_raises {A S : Type} (body : A -> S -> result S) (x : A)
  (l : list A) (s : S) (e : exn) :
  body x s = Raise e -> for_in (x :: l) body s = Raise e.
Proof. intros H. simpl. rewrite H. reflexivity. Qed.

(** A loop whose body raises at some item, whatever the state, raises. *)
Lemma for_in_raises_at {A S : Type} (body : A -> S -> result S) (x : A)
  (l : list A) :
  In x l -> (forall s, exists e, body x s = Raise e) ->
  forall s, exists e, for_in l body s = Raise e.
Proof.
  induction l as [|y l IH]; intros Hin Hx s; [destruct Hin|].
  simpl. destruct (body y s) as [s1|e] eqn:Hb.
  - destruct Hin as [->|Hin].
    + destruct (Hx s) as [e He]. congruence.
    + apply IH; assumption.
  - exists e. reflexivity.
Qed.

Lemma py_range_nil (lo hi : Z) : hi <= lo -> py_range lo hi = [].
Proof.
  intros H. unfold py_range.
  replace (Z.to_nat (hi - lo)) with O by lia. reflexivity.
Qed.

Lemma py_range_cons (lo hi : Z) :
  lo < hi -> py_range lo hi = lo :: py_range (lo + 1) hi.
Proof.
  intros H. unfold py_range.
  replace (Z.to_nat (hi - lo)) with (S (Z.to_nat (hi - (lo + 1)))) by lia.
  simpl. f_equal; [lia|].
  rewrite <- seq_shift, map_map.
  apply map_ext. intros i. lia.
Qed.

Lemma py_range_In (lo hi n : Z) : In n (py_range lo hi) <-> lo <= n < hi.
Proof.
  unfold py_range. rewrite in_map_iff. split.
  - intros [i [<- Hi]]. apply in_seq in Hi. lia.
  - intros H. exists (Z.to_nat (n - lo)). split; [lia|].
    apply in_seq. lia.
Qed.

(** Splitting a range at one of its items: what comes before are the
    smaller items. *)
Lemma py_range_split (l1 l2 : list Z) (x : Z) :
  forall lo hi,
    py_range lo hi = l1 ++ x :: l2 ->
    lo <= x < hi /\ (forall n, In n l1 <-> lo <= n < x).
Proof.
  induction l1 as [|a l1 IH]; intros lo hi Hsplit.
  - destruct (Z_lt_le_dec lo hi) as [Hlt|Hle].
    + rewrite (py_range_cons _ _ Hlt) in Hsplit. simpl in Hsplit.
      injection Hsplit as <- _. split; [lia|].
      intros n. simpl. lia.
    + rewrite (py_range_nil _ _ Hle) in Hsplit. discriminate Hsplit.
  - destruct (Z_lt_le_dec lo hi) as [Hlt|Hle].
    + rewrite (py_range_cons _ _ Hlt) in Hsplit. simpl in Hsplit.
      injection Hsplit as <- Hrest.
      destruct (IH _ _ Hrest) as [Hx Hl1]. split; [lia|].
      intros n. simpl. rewrite Hl1. lia.
    + rewrite (py_range_nil _ _ Hle) in Hsplit. discriminate Hsplit.
Qed.

(* ================================================================== *)
(** ** The search policy: first best candidate *)

Section Search.

Context {L : Library}.
Variables (M : Type) (better : F -> F -> bool) (sc : Z -> F) (md : Z -> M).

Lemma ranked_incl (l l' : list Z) :
  incl l' l -> ranked better sc l -> ranked better sc l'.
Proof.
  intros Hincl Hr i j k Hi Hj Hk.
  apply Hr; apply Hincl; assumption.
Qed.

Lemma ranked_asym (l : list Z) (i j : Z) :
  ranked better sc l -> In i l -> In j l ->
  better (sc i) (sc j) = true -> better (sc j) (sc i) = false.
Proof.
  intros Hr Hi Hj Hij.
  destruct (better (sc j) (sc i)) eqn:Hji; [|reflexivity].
  destruct (Hr i j i Hi Hj Hi) as [Hirr [Htr _]].
  rewrite (Htr Hij Hji) in Hirr. discriminate Hirr.
Qed.

(** Scanning [l] from the candidate [n0] as current best ends at a
    candidate [n] of [n0 :: l] that every earlier one is strictly worse
    than and that none is better than. *)
Lemma scan_first_best (l : list Z) :
  forall n0,
    ranked better sc (n0 :: l) ->
    exists l1 n l2,
      n0 :: l = l1 ++ n :: l2 /\
      scan better sc md l (sc n0, Some (md n0)) = (sc n, Some (md n)) /\
      (forall i, In i l1 -> better (sc n) (sc i) = true) /\
      (forall i, In i (n0 :: l) -> better (sc i) (sc n) = false).
Proof.
  induction l as [|n1 l IH]; intros n0 Hr.
  - exists [], n0, []. repeat split; try reflexivity.
    + intros i [].
    + intros i [<-|[]]. apply (Hr n0 n0 n0); left; reflexivity.
  - simpl scan. unfold pick. simpl fst.
    destruct (better (sc n1) (sc n0)) eqn:Hstep.
    + (* n1 becomes the current best *)
      assert (Hr1 : ranked better sc (n1 :: l)).
      { apply (ranked_incl (n0 :: n1 :: l)); [|exact Hr].
        intros x Hx. right. exact Hx. }
      destruct (IH n1 Hr1) as (l1 & n & l2 & Hsplit & Hscan & Hbefore & Hbest).
      assert (Hn : In n (n0 :: n1 :: l)).
      { right. rewrite Hsplit. apply in_or_app. right. left. reflexivity. }
      assert (Hn0 : better (sc n) (sc n0) = true).
      { destruct l1 as [|a l1].
        - simpl in Hsplit. injection Hsplit as <- _. exact Hstep.
        - simpl in Hsplit. injection Hsplit as <- _.
          destruct (Hr n n1 n0) as [_ [Htr _]];
            [exact Hn | right; left; reflexivity | left; reflexivity |].
          apply Htr; [|exact Hstep].
          apply Hbefore. left. reflexivity. }
      exists (n0 :: l1), n, l2. repeat split.
      * simpl. rewrite <- Hsplit. reflexivity.
      * exact Hscan.
      * intros i [<-|Hi]; [exact Hn0 | apply Hbefore; exact Hi].
      * intros i [<-|Hi]; [|apply Hbest; exact Hi].
        apply (ranked_asym (n0 :: n1 :: l)); auto. left. reflexivity.
    + (* n0 stays the current best *)
      assert (Hr0 : ranked better sc (n0 :: l)).
      { apply (ranked_incl (n0 :: n1 :: l)); [|exact Hr].
        intros x [<-|Hx]; [left; reflexivity | right; right; exact Hx]. }
      destruct (IH n0 Hr0) as (l1 & n & l2 & Hsplit & Hscan & Hbefore & Hbest).
      destruct l1 as [|a l1]; simpl in Hsplit; injection Hsplit as <- Hl.
      * exists [], n0, (n1 :: l). repeat split; try reflexivity.
        -- exact Hscan.
        -- intros i [].
        -- intros i [<-|[<-|Hi]].
           ++ apply Hbest. left. reflexivity.
           ++ exact Hstep.
           ++ apply Hbest. right. exact Hi.
      * assert (Hn : In n (n0 :: n1 :: l)).
        { right. right. rewrite Hl. apply in_or_app. right. left.
          reflexivity. }
        assert (Hn0 : better (sc n) (sc n0) = true).
        { apply Hbefore. left. reflexivity. }
        destruct (Hr n n0 n1) as [_ [_ Hcot]];
          [exact Hn | left; reflexivity | right; left; reflexivity |].
        assert (Hn1 : better (sc n) (sc n1) = true).
        { destruct (Hcot Hn0) as [H|H]; [exact H | congruence]. }
        exists (n0 :: n1 :: l1), n, l2. repeat split.
        -- simpl. rewrite Hl. reflexivity.
        -- exact Hscan.
        -- intros i [<-|[<-|Hi]]; [exact Hn0 | exact Hn1 |].
           apply Hbefore. right. exact Hi.
        -- intros i [<-|[<-|Hi]].
           ++ apply Hbest. left. reflexivity.
           ++ apply (ranked_asym (n0 :: n1 :: l)); auto.
              right. left. reflexivity.
           ++ apply Hbest. right. exact Hi.
Qed.

(** The same over a range of candidates that all beat the initial
    score. *)
Lemma scan_range_first_best (lo hi : Z) (s0 : F) (m0 : option M) :
  lo <= hi ->
  better (sc lo) s0 = true ->
  ranked better sc (py_range lo (hi + 1)) ->
  exists n,
    lo <= n <= hi /\
    scan better sc md (py_range lo (hi + 1)) (s0, m0) = (sc n, Some (md n)) /\
    (forall i, lo <= i <= hi -> better (sc i) (sc n) = false) /\
    (forall i, lo <= i < n -> better (sc n) (sc i) = true).
Proof.
  intros Hle Hfirst Hr.
  assert (Hcons : py_range lo (hi + 1) = lo :: py_range (lo + 1) (hi + 1))
    by (apply py_range_cons; lia).
  rewrite Hcons in Hr |- *.
  destruct (scan_first_best _ _ Hr)
    as (l1 & n & l2 & Hsplit & Hscan & Hbefore & Hbest).
  rewrite <- Hcons in Hsplit.
  destruct (py_range_split _ _ _ _ _ Hsplit) as [Hn Hl1].
  exists n. repeat split; try lia.
  - simpl scan. unfold pick. simpl fst. rewrite Hfirst. exact Hscan.
  - intros i Hi. apply Hbest. rewrite <- Hcons. apply py_range_In. lia.
  - intros i Hi. apply Hbefore. apply Hl1. lia.
Qed.

End Search.

Lemma ranked_flip {L : Library} (sc : Z -> F) (l : list Z) :
  ranked flt sc l -> ranked fgt sc l.
Proof.
  intros Hr i j k Hi Hj Hk. unfold fgt.
  destruct (Hr i j k Hi Hj Hk) as [Hirr _].
  destruct (Hr k j i Hk Hj Hi) as [_ [Htr _]].
  destruct (Hr j i k Hj Hi Hk) as [_ [_ Hcot]].
  repeat split.
  - exact Hirr.
  - intros Hji Hkj. apply Htr; assumption.
  - intros Hji. destruct (Hcot Hji) as [H|H]; [right | left]; exact H.
Qed.

(* ================================================================== *)
(** ** base_model and the BIC search *)

Section Facts.

Context {L : Library}.

Lemma GaussianHMM_fit_n_components (n rs : Z) (X : Obs) (lengths : list Z)
  (m : GaussianHMM) :
  GaussianHMM_fit n rs X lengths = Ok m -> n_components m = n.
Proof.
  unfold GaussianHMM_fit. destruct (em_fit n rs X lengths); intros H.
  - injection H as <-. reflexivity.
  - discriminate H.
Qed.

Lemma base_model_eq (self : ModelSelector) (n : Z) :
  base_model self n =
  match em_fit n (random_state self) (X self) (lengths self) with
  | Some th => Ok (Some (mkHMM n (random_state self) th))
  | None => Ok None
  end.
Proof.
  unfold base_model, GaussianHMM_fit.
  destruct (em_fit n (random_state self) (X self) (lengths self));
    reflexivity.
Qed.

Lemma base_model_fit_spec (self : ModelSelector) (n : Z) (m : GaussianHMM) :
  fit_spec self n = Ok m -> base_model self n = Ok (Some m).
Proof.
  unfold fit_spec, base_model. intros ->. reflexivity.
Qed.

Lemma base_model_Some (self : ModelSelector) (n : Z) (m : GaussianHMM) :
  base_model self n = Ok (Some m) -> fit_spec self n = Ok m.
Proof.
  unfold fit_spec, base_model.
  destruct (GaussianHMM_fit n (random_state self) (X self) (lengths self));
    simpl; intros H; [injection H as <-; reflexivity | discriminate H].
Qed.

(** base_model never raises, and a model it returns has the state count
    it was asked for. *)
Lemma base_model_total (self : ModelSelector) (n : Z) :
  exists o, base_model self n = Ok o /\
            forall m, o = Some m -> n_components m = n.
Proof.
  rewrite base_model_eq.
  destruct (em_fit n (random_state self) (X self) (lengths self)) as [th|].
  - eexists. split; [reflexivity|]. intros m [= <-]. reflexivity.
  - exists None. split; [reflexivity|]. intros m [=].
Qed.

Lemma base_model_admissible (self : ModelSelector) :
  exists r, base_model self (n_constant self) = Ok r /\ admissible self r.
Proof.
  destruct (base_model_total self (n_constant self)) as [o [Ho Hn]].
  exists o. split; [exact Ho|].
  destruct o as [m|]; simpl; [right; apply Hn; reflexivity | exact I].
Qed.

(** The score the loop of SelectorBIC computes for a fitted candidate is
    BIC(n). *)
Lemma SelectorBIC_score_spec (self : ModelSelector) (n : Z)
  (m : GaussianHMM) :
  fit_spec self n = Ok m ->
  SelectorBIC_score self (Some m) n = BIC_spec self n.
Proof.
  intros Hfit. unfold BIC_spec, SelectorBIC_score, p_spec.
  rewrite Hfit. unfold method_score. cbn [bind].
  destruct (GaussianHMM_score m (X self) (lengths self)); [|reflexivity].
  cbn [bind]. destruct (len_row0 (X self)); [|reflexivity].
  cbn [bind]. rewrite Z.pow_2_r. reflexivity.
Qed.

Lemma BIC_spec_fitted (self : ModelSelector) (n : Z) (s : F) :
  BIC_spec self n = Ok s -> exists m, fit_spec self n = Ok m.
Proof.
  unfold BIC_spec. intros H. bind_inv H as m Hm. exists m. exact Hm.
Qed.

Lemma SelectorBIC_loop_scan (self : ModelSelector) (sc : Z -> F)
  (md : Z -> GaussianHMM) (l : list Z) :
  (forall n, In n l ->
             BIC_spec self n = Ok (sc n) /\ fit_spec self n = Ok (md n)) ->
  forall st,
    for_in l (SelectorBIC_body self) st = Ok (scan flt sc md l st).
Proof.
  induction l as [|n l IH]; intros Hl st; [reflexivity|].
  destruct (Hl n (or_introl eq_refl)) as [Hs Hm].
  simpl. destruct st as [best_score best_model].
  unfold SelectorBIC_body at 1.
  rewrite (base_model_fit_spec _ _ _ Hm). simpl.
  rewrite (SelectorBIC_score_spec _ _ _ Hm), Hs. simpl.
  unfold pick. simpl.
  destruct (flt (sc n) best_score);
    apply IH; intros i Hi; apply Hl; right; exact Hi.
Qed.

(** A failed fit inside the loop of SelectorBIC raises. *)
Lemma SelectorBIC_body_None (self : ModelSelector) (n : Z)
  (st : F * option GaussianHMM) :
  base_model self n = Ok None ->
  SelectorBIC_body self n st = Raise AttributeError.
Proof.
  intros H. destruct st as [best_score best_model].
  unfold SelectorBIC_body. rewrite H. reflexivity.
Qed.

End Facts.

(* ================================================================== *)
(** ** The DIC and CV searches *)

Section LoopFacts.

Context {L : Library}.

(** Every iteration of the loop of SelectorDIC raises: when the scoring of
    the other categories goes through, [np.mean] is applied to the model
    object (or to None). *)
Lemma SelectorDIC_body_raises (self : ModelSelector) (n : Z)
  (st : pyval * option GaussianHMM) :
  exists e, SelectorDIC_body self n st = Raise e.
Proof.
  destruct st as [best_score best_model]. unfold SelectorDIC_body.
  destruct (base_model_total self n) as [o [-> _]]. cbn [bind].
  destruct (SelectorDIC_scores self o) as [scores|e]; cbn [bind].
  - exists TypeError. destruct o; reflexivity.
  - exists e. reflexivity.
Qed.

Lemma SelectorDIC_select_nonempty (self : ModelSelector) :
  min_n_components self <= max_n_components self ->
  SelectorDIC_select self = base_model self (n_constant self).
Proof.
  intros Hle. unfold SelectorDIC_select, candidates.
  rewrite py_range_cons by lia.
  destruct (SelectorDIC_body_raises self (min_n_components self)
              (PyFloat neg_inf, None)) as [e He].
  rewrite (for_in_raises _ _ _ _ _ He). reflexivity.
Qed.

Lemma last_opt_cons {A : Type} (a : A) (l : list A) :
  exists b, last_opt (a :: l) = Some b.
Proof.
  revert a. induction l as [|x l IH]; intros a.
  - exists a. reflexivity.
  - destruct (IH x) as [b Hb]. exists b. exact Hb.
Qed.

Lemma mapM_last_inv {A B : Type} (f : A -> result B) (l : list A) :
  forall rs b,
    mapM f l = Ok rs -> last_opt rs = Some b ->
    exists a, last_opt l = Some a /\ f a = Ok b.
Proof.
  induction l as [|x l IH]; intros rs b Hm Hlast; simpl in Hm.
  - injection Hm as <-. discriminate Hlast.
  - bind_inv Hm as y Hy. bind_inv Hm as ys Hys. injection Hm as <-.
    destruct ys as [|r rs'].
    + destruct l as [|x' l].
      * simpl in Hlast. injection Hlast as <-. exists x. split; auto.
      * simpl in Hys. bind_inv Hys as y' Hy'. bind_inv Hys as ys' Hys'.
        discriminate Hys.
    + destruct l as [|x' l]; [discriminate Hys|].
      apply (IH (r :: rs') b Hys). exact Hlast.
Qed.

Lemma mapM_nonempty {A B : Type} (f : A -> result B) (l : list A)
  (rs : list B) :
  mapM f l = Ok rs -> l <> [] -> exists b, last_opt rs = Some b.
Proof.
  revert rs. induction l as [|x l IH]; intros rs Hm Hne; [congruence|].
  simpl in Hm. bind_inv Hm as y Hy. bind_inv Hm as ys Hys.
  injection Hm as <-.
  destruct ys as [|r rs'].
  - exists y. reflexivity.
  - destruct l as [|x' l]; [discriminate Hys|].
    destruct (IH (r :: rs') Hys) as [b Hb]; [discriminate|].
    exists b. exact Hb.
Qed.

(** One fold of the loop of SelectorCV is one fold of the
    cross-validation, appending its score and rebinding [base_hmm]. *)
Lemma SelectorCV_fold_spec (self : ModelSelector) (n : Z)
  (fold : list nat * list nat) (logL : F) (m : GaussianHMM) (acc : list F)
  (v : option GaussianHMM) :
  CV_fold_spec self n fold = Ok (logL, m) ->
  SelectorCV_fold self n fold (acc, v) = Ok (acc ++ [logL], Some m).
Proof.
  unfold CV_fold_spec, SelectorCV_fold. destruct fold as [train_idx test_idx].
  cbn [fst snd]. intros H.
  bind_inv H as [x_train train_len] Htrain. rewrite Htrain. cbn [bind].
  bind_inv H as m' Hfit. rewrite Hfit. cbn [bind].
  bind_inv H as [x_test test_len] Htest. rewrite Htest. cbn [bind].
  bind_inv H as s Hs. rewrite Hs. cbn [bind].
  injection H as <- <-. reflexivity.
Qed.

Lemma SelectorCV_folds_loop (self : ModelSelector) (n : Z)
  (folds : list (list nat * list nat)) :
  forall rs acc v,
    mapM (CV_fold_spec self n) folds = Ok rs ->
    for_in folds (SelectorCV_fold self n) (acc, v) =
    Ok (acc ++ map fst rs,
        match last_opt rs with
        | Some r => Some (snd r)
        | None => v
        end).
Proof.
  induction folds as [|fold folds IH]; intros rs acc v Hm; simpl in Hm.
  - injection Hm as <-. simpl. rewrite app_nil_r. reflexivity.
  - bind_inv Hm as [logL m] Hfold. bind_inv Hm as rs' Hrs'.
    injection Hm as <-. simpl for_in.
    rewrite (SelectorCV_fold_spec _ _ _ _ _ acc v Hfold).
    rewrite (IH rs' (acc ++ [logL]) (Some m) Hrs').
    rewrite <- app_assoc. simpl app.
    destruct rs' as [|r rs'']; [reflexivity|].
    destruct (last_opt_cons r rs'') as [b Hb].
    change (last_opt ((logL, m) :: r :: rs'')) with (last_opt (r :: rs'')).
    rewrite Hb. reflexivity.
Qed.

(** What [CV_last_fold_model] fits. *)
Lemma CV_last_fold_model_inv (self : ModelSelector) (n : Z)
  (m : GaussianHMM) :
  CV_last_fold_model self n = Ok m ->
  exists folds train_idx test_idx x_train train_len,
    CV_folds self = Ok folds /\
    last_opt folds = Some (train_idx, test_idx) /\
    combine_sequences train_idx (sequences self) = Ok (x_train, train_len) /\
    GaussianHMM_fit n (random_state self) x_train train_len = Ok m.
Proof.
  unfold CV_last_fold_model. intros H. bind_inv H as folds Hfolds.
  destruct (last_opt folds) as [[train_idx test_idx]|] eqn:Hlast;
    [|discriminate H].
  cbn [fst] in H. bind_inv H as [x_train train_len] Htrain.
  exists folds, train_idx, test_idx, x_train, train_len. auto.
Qed.

(** The model of the last fold, read off the results of the folds. *)
Lemma CV_last_fold_model_of_results (self : ModelSelector) (n : Z)
  (folds : list (list nat * list nat)) (rs : list (F * GaussianHMM))
  (r : F * GaussianHMM) :
  CV_folds self = Ok folds ->
  mapM (CV_fold_spec self n) folds = Ok rs ->
  last_opt rs = Some r ->
  CV_last_fold_model self n = Ok (snd r) /\ n_components (snd r) = n.
Proof.
  intros Hfolds Hrs Hr.
  destruct (mapM_last_inv _ _ _ _ Hrs Hr) as [fold [Hfold Hf]].
  unfold CV_last_fold_model. rewrite Hfolds. cbn [bind]. rewrite Hfold.
  unfold CV_fold_spec in Hf.
  bind_inv Hf as [x_train train_len] Htrain. rewrite Htrain. cbn [bind].
  bind_inv Hf as m Hfit.
  bind_inv Hf as [x_test test_len] Htest.
  bind_inv Hf as s Hs. injection Hf as <-. cbn [snd].
  split; [exact Hfit | exact (GaussianHMM_fit_n_components _ _ _ _ _ Hfit)].
Qed.

(** With at least one fold, a candidate that can be scored has a
    last-fold model. *)
Lemma CV_spec_last_fold_model (self : ModelSelector) (n : Z) (s : F) :
  (forall folds, CV_folds self = Ok folds -> folds <> []) ->
  CV_spec self n = Ok s ->
  exists m, CV_last_fold_model self n = Ok m /\ n_components m = n.
Proof.
  intros Hne H. unfold CV_spec in H.
  bind_inv H as folds Hfolds. bind_inv H as rs Hrs.
  destruct (mapM_nonempty _ _ _ Hrs (Hne _ Hfolds)) as [r Hr].
  exists (snd r). exact (CV_last_fold_model_of_results _ _ _ _ _ Hfolds Hrs Hr).
Qed.

(** One iteration of the loop of SelectorCV, for a candidate whose folds
    are all fitted and scored. *)
Lemma SelectorCV_body_pick (self : ModelSelector) (n : Z) (s : F)
  (m : GaussianHMM) (b : F) (bm v : option GaussianHMM) :
  CV_spec self n = Ok s ->
  CV_last_fold_model self n = Ok m ->
  SelectorCV_body self (Z.min 3 (len (sequences self))) n (b, bm, v) =
  Ok (pick fgt (b, bm) s m, Some m).
Proof.
  intros Hs Hm. unfold CV_spec in Hs.
  bind_inv Hs as folds Hfolds. bind_inv Hs as rs Hrs.
  injection Hs as <-.
  assert (Hne : folds <> []).
  { intros ->. unfold CV_last_fold_model in Hm. rewrite Hfolds in Hm.
    discriminate Hm. }
  destruct (mapM_nonempty _ _ _ Hrs Hne) as [r Hr].
  destruct (CV_last_fold_model_of_results _ _ _ _ _ Hfolds Hrs Hr) as [Hm' _].
  assert (Hsnd : snd r = m) by congruence.
  unfold SelectorCV_body. unfold CV_folds in Hfolds. rewrite Hfolds.
  cbn [bind].
  rewrite (SelectorCV_folds_loop _ _ _ _ [] v Hrs). cbn [bind app].
  rewrite Hr, Hsnd. unfold pick. cbn [fst].
  destruct (fgt (np_mean (map fst rs)) b); reflexivity.
Qed.

Lemma SelectorCV_loop_scan (self : ModelSelector) (sc : Z -> F)
  (md : Z -> GaussianHMM) (l : list Z) :
  (forall n, In n l ->
             CV_spec self n = Ok (sc n) /\
             CV_last_fold_model self n = Ok (md n)) ->
  forall st v,
  exists v',
    for_in l (SelectorCV_body self (Z.min 3 (len (sequences self)))) (st, v)
    = Ok (scan fgt sc md l st, v').
Proof.
  induction l as [|n l IH]; intros Hl st v.
  - exists v. reflexivity.
  - destruct (Hl n (or_introl eq_refl)) as [Hs Hm].
    destruct st as [b bm]. cbn [for_in].
    rewrite (SelectorCV_body_pick _ _ _ _ b bm v Hs Hm). cbn [scan].
    apply IH. intros i Hi. apply Hl. right. exact Hi.
Qed.

End LoopFacts.

(* ================================================================== *)
(** ** What the searches can return *)

Section Admissible.

Context {L : Library}.

Lemma in_range_admissible (self : ModelSelector) (r : option GaussianHMM) :
  in_range self r -> admissible self r.
Proof.
  destruct r as [m|]; simpl; intros H; [left; exact H | exact I].
Qed.

Lemma candidates_In (self : ModelSelector) (n : Z) :
  In n (candidates self) <->
  min_n_components self <= n <= max_n_components self.
Proof.
  unfold candidates. rewrite py_range_In. lia.
Qed.

Lemma base_model_in_range (self : ModelSelector) (n : Z)
  (o : option GaussianHMM) :
  In n (candidates self) -> base_model self n = Ok o -> in_range self o.
Proof.
  intros Hn Ho. apply candidates_In in Hn.
  destruct (base_model_total self n) as [o' [Ho' Hm]].
  assert (o' = o) by congruence. subst o'.
  destruct o as [m|]; simpl; [|exact I].
  rewrite (Hm m eq_refl). exact Hn.
Qed.

Lemma SelectorBIC_body_in_range (self : ModelSelector) (n : Z)
  (st st' : F * option GaussianHMM) :
  In n (candidates self) -> in_range self (snd st) ->
  SelectorBIC_body self n st = Ok st' -> in_range self (snd st').
Proof.
  intros Hn Hst H. destruct st as [best_score best_model].
  unfold SelectorBIC_body in H.
  bind_inv H as base_hmm Hbase. bind_inv H as score Hscore.
  destruct (flt score best_score); injection H as <-; simpl.
  - exact (base_model_in_range _ _ _ Hn Hbase).
  - exact Hst.
Qed.

Lemma SelectorCV_fold_in_range (self : ModelSelector) (n : Z)
  (fold : list nat * list nat) (st st' : list F * option GaussianHMM) :
  In n (candidates self) -> in_range self (snd st) ->
  SelectorCV_fold self n fold st = Ok st' -> in_range self (snd st').
Proof.
  intros Hn Hst H. destruct fold as [train_idx test_idx].
  destruct st as [scores v]. unfold SelectorCV_fold in H.
  bind_inv H as [x_train train_len] Htrain.
  bind_inv H as base_hmm Hfit.
  bind_inv H as [x_test test_len] Htest.
  bind_inv H as logL HlogL.
  injection H as <-. simpl.
  rewrite (GaussianHMM_fit_n_components _ _ _ _ _ Hfit).
  apply candidates_In. exact Hn.
Qed.

Lemma SelectorCV_body_in_range (self : ModelSelector) (splits n : Z)
  (st st' : F * option GaussianHMM * option GaussianHMM) :
  In n (candidates self) ->
  in_range self (snd (fst st)) /\ in_range self (snd st) ->
  SelectorCV_body self splits n st = Ok st' ->
  in_range self (snd (fst st')) /\ in_range self (snd st').
Proof.
  intros Hn [Hbm Hv] H. destruct st as [[best_score best_model] base_hmm].
  simpl in Hbm, Hv. unfold SelectorCV_body in H.
  bind_inv H as folds Hfolds.
  bind_inv H as [scores base_hmm'] Hloop.
  assert (Hv' : in_range self base_hmm').
  { apply (for_in_invariant (fun st => in_range self (snd st))
             (SelectorCV_fold self n) folds) with (s := ([], base_hmm))
                                                  (s' := (scores, base_hmm')).
    - intros fold s s' _. apply SelectorCV_fold_in_range. exact Hn.
    - exact Hv.
    - exact Hloop. }
  destruct (fgt (np_mean scores) best_score).
  - bind_inv H as m Hm. injection H as <-. simpl.
    destruct base_hmm' as [m'|]; [|discriminate Hm].
    injection Hm as ->. split; exact Hv'.
  - injection H as <-. simpl. split; assumption.
Qed.

End Admissible.

(* ================================================================== *)
(** ** The strategies *)

Section Claims.

Context {L : Library}.

(** C1 (amended).  For every strategy and every selector, [select] never
    raises: it returns either None or a fitted model whose state count
    lies in [[min_n_components, max_n_components]] or equals
    [n_constant].  A non-null model is not guaranteed. *)
Theorem select_total_admissible (s : strategy) (self : ModelSelector) :
  exists r, select s self = Ok r /\ admissible self r.
Proof.
  destruct s; simpl.
  - apply base_model_admissible.
  - unfold SelectorBIC_select.
    destruct (for_in (candidates self) (SelectorBIC_body self) (inf, None))
      as [[bs bm]|e] eqn:Hloop; cbn [bind try_except].
    + exists bm. split; [reflexivity|]. apply in_range_admissible.
      apply (for_in_invariant (fun st => in_range self (snd st))
               (SelectorBIC_body self) (candidates self))
        with (s := (inf, None)) (s' := (bs, bm)).
      * intros n st st'. apply SelectorBIC_body_in_range.
      * exact I.
      * exact Hloop.
    + apply base_model_admissible.
  - destruct (Z_le_gt_dec (min_n_components self) (max_n_components self))
      as [Hle|Hgt].
    + rewrite (SelectorDIC_select_nonempty self Hle).
      apply base_model_admissible.
    + unfold SelectorDIC_select, candidates.
      rewrite py_range_nil by lia.
      exists None. split; [reflexivity | exact I].
  - unfold SelectorCV_select.
    destruct (for_in (candidates self)
                (SelectorCV_body self (Z.min 3 (len (sequences self))))
                (neg_inf, None, None))
      as [[[bs bm] v]|e] eqn:Hloop; cbn [bind try_except].
    + exists bm. split; [reflexivity|]. apply in_range_admissible.
      apply (for_in_invariant
               (fun st => in_range self (snd (fst st)) /\
                          in_range self (snd st))
               (SelectorCV_body self (Z.min 3 (len (sequences self))))
               (candidates self))
        with (s := (neg_inf, None, None)) (s' := (bs, bm, v)).
      * intros n st st'. apply SelectorCV_body_in_range.
      * split; exact I.
      * exact Hloop.
    + apply base_model_admissible.
Qed.

(** The search of SelectorBIC over candidates that [BIC_spec] scores: the
    model of the first candidate with the lowest score is returned. *)
Lemma SelectorBIC_select_lowest_of_spec (self : ModelSelector)
  (sc : Z -> F) :
  min_n_components self <= max_n_components self ->
  (forall n, min_n_components self <= n <= max_n_components self ->
             BIC_spec self n = Ok (sc n) /\ flt (sc n) inf = true) ->
  ranked flt sc (candidates self) ->
  (forall n m, base_model self n = Ok (Some m) ->
               SelectorBIC_score self (Some m) n = BIC_spec self n) /\
  exists n m,
    min_n_components self <= n <= max_n_components self /\
    SelectorBIC_select self = Ok (Some m) /\
    base_model self n = Ok (Some m) /\
    n_components m = n /\
    (forall i, min_n_components self <= i <= max_n_components self ->
               flt (sc i) (sc n) = false) /\
    (forall i, min_n_components self <= i < n ->
               flt (sc n) (sc i) = true).
Proof.
  intros Hle Hsc Hr. split.
  { intros n m Hm. apply SelectorBIC_score_spec.
    apply base_model_Some. exact Hm. }
  destruct (Hsc (min_n_components self)) as [Hmin Hfin]; [lia|].
  destruct (BIC_spec_fitted _ _ _ Hmin) as [m0 _].
  set (md := fun n => match fit_spec self n with
                      | Ok m => m
                      | Raise _ => m0
                      end).
  assert (Hmd : forall n, In n (candidates self) ->
                          BIC_spec self n = Ok (sc n) /\
                          fit_spec self n = Ok (md n)).
  { intros n Hn. apply candidates_In in Hn.
    destruct (Hsc n Hn) as [Hs _]. split; [exact Hs|].
    destruct (BIC_spec_fitted _ _ _ Hs) as [m Hm].
    unfold md. rewrite Hm. reflexivity. }
  destruct (scan_range_first_best GaussianHMM flt sc md
              (min_n_components self) (max_n_components self) inf None
              Hle Hfin Hr)
    as (n & Hn & Hscan & Hbest & Hfirst).
  assert (Hfit : fit_spec self n = Ok (md n)).
  { apply Hmd. apply candidates_In. exact Hn. }
  exists n, (md n). repeat split; try lia; try assumption.
  - unfold SelectorBIC_select.
    rewrite (SelectorBIC_loop_scan self sc md (candidates self) Hmd).
    unfold candidates. rewrite Hscan. reflexivity.
  - apply base_model_fit_spec. exact Hfit.
  - exact (GaussianHMM_fit_n_components _ _ _ _ _ Hfit).
Qed.

(** C3.  Let the category have at least one frame [row], and let every
    candidate n of the range be fitted and scored, with log-likelihood
    logL(n) on the category's own data.  Then for every candidate
    SelectorBIC computes the score
    BIC(n) = -2*logL(n) + p(n)*log(N), p(n) = n^2 + 2*n*d - 1,
    with N the number of frames of X and d the number of features of a
    frame; and when these scores are below +inf and compare as a total
    preorder, select() returns the model of the n with the lowest BIC: no
    candidate has a strictly lower score and every earlier candidate has
    a strictly higher one (the first-encountered n wins ties). *)
Theorem SelectorBIC_select_lowest (self : ModelSelector) (row : list F)
  (rest : Obs) (sc : Z -> F) :
  X self = row :: rest ->
  min_n_components self <= max_n_components self ->
  (forall n, min_n_components self <= n <= max_n_components self ->
             exists m logL,
               base_model self n = Ok (Some m) /\
               GaussianHMM_score m (X self) (lengths self) = Ok logL /\
               sc n = BIC_formula logL n (Z.of_nat (List.length row))
                        (Z.of_nat (List.length (X self))) /\
               flt (sc n) inf = true) ->
  ranked flt sc (candidates self) ->
  (forall n m, min_n_components self <= n <= max_n_components self ->
               base_model self n = Ok (Some m) ->
               SelectorBIC_score self (Some m) n = Ok (sc n)) /\
  exists n m,
    min_n_components self <= n <= max_n_components self /\
    SelectorBIC_select self = Ok (Some m) /\
    base_model self n = Ok (Some m) /\
    n_components m = n /\
    (forall i, min_n_components self <= i <= max_n_components self ->
               flt (sc i) (sc n) = false) /\
    (forall i, min_n_components self <= i < n ->
               flt (sc n) (sc i) = true).
Proof.
  intros HX Hle Hsc Hr.
  assert (Hspec : forall n,
             min_n_components self <= n <= max_n_components self ->
             BIC_spec self n = Ok (sc n) /\ flt (sc n) inf = true).
  { intros n Hn. destruct (Hsc n Hn) as (m & logL & Hm & HlogL & Heq & Hfin).
    split; [|exact Hfin].
    unfold BIC_spec. rewrite (base_model_Some _ _ _ Hm). cbn [bind].
    rewrite HlogL. cbn [bind]. rewrite Heq, HX. cbn [len_row0 bind].
    reflexivity. }
  destruct (SelectorBIC_select_lowest_of_spec self sc Hle Hspec Hr)
    as [Hscore Hbest].
  split; [|exact Hbest].
  intros n m Hn Hm. rewrite (Hscore n m Hm). apply Hspec. exact Hn.
Qed.

(** C4 (amended).  In SelectorBIC, a fitting failure at one candidate n of
    the range aborts the whole search: the loop raises when it calls
    [score] on None and [select] returns base_model(n_constant), whatever
    the other candidates are. *)
Theorem SelectorBIC_failure_aborts (self : ModelSelector) (n : Z) :
  min_n_components self <= n <= max_n_components self ->
  base_model self n = Ok None ->
  SelectorBIC_select self = base_model self (n_constant self).
Proof.
  intros Hn Hnone. unfold SelectorBIC_select.
  destruct (for_in_raises_at (SelectorBIC_body self) n (candidates self))
    with (s := (inf, @None GaussianHMM)) as [e He].
  - apply candidates_In. exact Hn.
  - intros st. exists AttributeError.
    apply SelectorBIC_body_None. exact Hnone.
  - rewrite He. reflexivity.
Qed.

(** The loop of SelectorCV on the same hypotheses as C5 and C10: the
    result is the last-fold model of the first best candidate. *)
Lemma SelectorCV_select_first_best (self : ModelSelector) (sc : Z -> F) :
  min_n_components self <= max_n_components self ->
  (forall folds, CV_folds self = Ok folds -> folds <> []) ->
  (forall n, min_n_components self <= n <= max_n_components self ->
             CV_spec self n = Ok (sc n) /\ fgt (sc n) neg_inf = true) ->
  ranked flt sc (candidates self) ->
  exists n m,
    min_n_components self <= n <= max_n_components self /\
    SelectorCV_select self = Ok (Some m) /\
    CV_last_fold_model self n = Ok m /\
    n_components m = n /\
    (forall i, min_n_components self <= i <= max_n_components self ->
               fgt (sc i) (sc n) = false) /\
    (forall i, min_n_components self <= i < n ->
               fgt (sc n) (sc i) = true).
Proof.
  intros Hle Hne Hsc Hr.
  destruct (Hsc (min_n_components self)) as [Hmin Hfin]; [lia|].
  destruct (CV_spec_last_fold_model _ _ _ Hne Hmin) as [m0 _].
  set (md := fun n => match CV_last_fold_model self n with
                      | Ok m => m
                      | Raise _ => m0
                      end).
  assert (Hmd : forall n, In n (candidates self) ->
                          CV_spec self n = Ok (sc n) /\
                          CV_last_fold_model self n = Ok (md n)).
  { intros n Hn. apply candidates_In in Hn.
    destruct (Hsc n Hn) as [Hs _]. split; [exact Hs|].
    destruct (CV_spec_last_fold_model _ _ _ Hne Hs) as [m [Hm _]].
    unfold md. rewrite Hm. reflexivity. }
  destruct (scan_range_first_best GaussianHMM fgt sc md
              (min_n_components self) (max_n_components self) neg_inf None
              Hle Hfin (ranked_flip _ _ Hr))
    as (n & Hn & Hscan & Hbest & Hfirst).
  assert (Hlast : CV_last_fold_model self n = Ok (md n)).
  { apply Hmd. apply candidates_In. exact Hn. }
  exists n, (md n). repeat split; try lia; try assumption.
  - unfold SelectorCV_select.
    destruct (SelectorCV_loop_scan self sc md (candidates self) Hmd
                (neg_inf, None) None) as [v Hloop].
    rewrite Hloop. unfold candidates. rewrite Hscan. reflexivity.
  - destruct (Hsc n Hn) as [Hs _].
    destruct (CV_spec_last_fold_model _ _ _ Hne Hs) as [m [Hm Hcomp]].
    congruence.
Qed.

(** C5.  When the partitioner yields at least one fold and every
    candidate is fitted and scored on every fold, with average held-out
    scores above -inf that compare as a total preorder, SelectorCV scores
    a candidate by the average over the k = min(3, number of sequences)
    folds of the log-likelihood of the held-out fold under the model fitted
    on the training fold, and returns a model of the first-encountered n
    maximizing that average. *)
Theorem SelectorCV_select_best_average (self : ModelSelector)
  (sc : Z -> F) :
  min_n_components self <= max_n_components self ->
  (forall folds, CV_folds self = Ok folds -> folds <> []) ->
  (forall n, min_n_components self <= n <= max_n_components self ->
             CV_spec self n = Ok (sc n) /\ fgt (sc n) neg_inf = true) ->
  ranked flt sc (candidates self) ->
  exists n m,
    min_n_components self <= n <= max_n_components self /\
    SelectorCV_select self = Ok (Some m) /\
    n_components m = n /\
    CV_spec self n = Ok (sc n) /\
    (forall i, min_n_components self <= i <= max_n_components self ->
               fgt (sc i) (sc n) = false) /\
    (forall i, min_n_components self <= i < n ->
               fgt (sc n) (sc i) = true).
Proof.
  intros Hle Hne Hsc Hr.
  destruct (SelectorCV_select_first_best self sc Hle Hne Hsc Hr)
    as (n & m & Hn & Hsel & _ & Hcomp & Hbest & Hfirst).
  exists n, m. repeat split; try lia; try assumption.
  apply Hsc. exact Hn.
Qed.

End Claims.

Section Fallback.

Context {L : Library}.

(** A candidate whose fit fails on every data makes the loop of SelectorCV
    raise: the partitioner raises, or the first fold cannot be combined or
    fitted. *)
Lemma SelectorCV_body_fit_fails (self : ModelSelector) (n : Z) :
  (forall rs X lengths, em_fit n rs X lengths = None) ->
  (forall folds, CV_folds self = Ok folds -> folds <> []) ->
  forall st,
  exists e,
    SelectorCV_body self (Z.min 3 (len (sequences self))) n st = Raise e.
Proof.
  intros Hfail Hne [[best_score best_model] v]. unfold SelectorCV_body.
  fold (CV_folds self).
  destruct (CV_folds self) as [folds|e] eqn:Hfolds; cbn [bind].
  - destruct folds as [|[train_idx test_idx] folds].
    + destruct (Hne [] eq_refl). reflexivity.
    + cbn [for_in]. unfold SelectorCV_fold at 1.
      destruct (combine_sequences train_idx (sequences self))
        as [[x_train train_len]|e]; cbn [bind].
      * unfold GaussianHMM_fit. rewrite Hfail. cbn [bind].
        exists FitError. reflexivity.
      * exists e. reflexivity.
  - exists e. reflexivity.
Qed.

(** C6 (amended).  If the fitter fails for every state count other than
    [n_constant], the range holds some n other than [n_constant], and the
    partitioner yields at least one fold when it returns, then
    SelectorBIC, SelectorDIC and SelectorCV each return what
    SelectorConstant returns, base_model(n_constant). *)
Theorem fallback_when_only_constant_fits (self : ModelSelector) (n : Z) :
  (forall k, k <> n_constant self ->
             forall rs X lengths, em_fit k rs X lengths = None) ->
  min_n_components self <= n <= max_n_components self ->
  n <> n_constant self ->
  (forall folds, CV_folds self = Ok folds -> folds <> []) ->
  SelectorBIC_select self = SelectorConstant_select self /\
  SelectorDIC_select self = SelectorConstant_select self /\
  SelectorCV_select self = SelectorConstant_select self.
Proof.
  intros Hfail Hn Hneq Hne. unfold SelectorConstant_select.
  assert (Hin : In n (candidates self)) by (apply candidates_In; exact Hn).
  repeat split.
  - unfold SelectorBIC_select.
    destruct (for_in_raises_at (SelectorBIC_body self) n (candidates self))
      with (s := (inf, @None GaussianHMM)) as [e He].
    + exact Hin.
    + intros st. exists AttributeError. apply SelectorBIC_body_None.
      rewrite base_model_eq, (Hfail n Hneq). reflexivity.
    + rewrite He. reflexivity.
  - apply SelectorDIC_select_nonempty. lia.
  - unfold SelectorCV_select.
    destruct (for_in_raises_at
                (SelectorCV_body self (Z.min 3 (len (sequences self))))
                n (candidates self))
      with (s := (neg_inf, @None GaussianHMM, @None GaussianHMM))
      as [e He].
    + exact Hin.
    + apply SelectorCV_body_fit_fails; [apply Hfail; exact Hneq | exact Hne].
    + rewrite He. reflexivity.
Qed.

(** C7 (amended).  SelectorConstant.select() fits the category's data with
    [n_constant] states and nothing else: it returns that model, which has
    exactly [n_constant] states, when the fit succeeds, and None when the
    fit fails; the range and the other categories play no part. *)
Theorem SelectorConstant_select_fixed (self : ModelSelector) :
  SelectorConstant_select self =
  match em_fit (n_constant self) (random_state self) (X self)
          (lengths self) with
  | Some th => Ok (Some (mkHMM (n_constant self) (random_state self) th))
  | None => Ok None
  end.
Proof.
  unfold SelectorConstant_select. apply base_model_eq.
Qed.

(** C8 (amended).  With an invalid range, [min_n_components] above
    [max_n_components], no error surfaces: there is no candidate, and
    SelectorBIC, SelectorDIC and SelectorCV return None without raising
    and without fitting the constant model. *)
Theorem empty_range_returns_none (self : ModelSelector) :
  max_n_components self < min_n_components self ->
  candidates self = [] /\
  SelectorBIC_select self = Ok None /\
  SelectorDIC_select self = Ok None /\
  SelectorCV_select self = Ok None.
Proof.
  intros Hgt.
  assert (Hnil : candidates self = [])
    by (unfold candidates; apply py_range_nil; lia).
  repeat split; [exact Hnil | | |].
  - unfold SelectorBIC_select. rewrite Hnil. reflexivity.
  - unfold SelectorDIC_select. rewrite Hnil. reflexivity.
  - unfold SelectorCV_select. rewrite Hnil. reflexivity.
Qed.

(** C9 (amended).  With a non-empty range, SelectorDIC.select() returns
    exactly base_model(n_constant), what SelectorConstant.select() returns
    (whether or not that fit succeeds): every iteration of its loop
    raises, so the first one sends control to the constant fallback. *)
Theorem SelectorDIC_is_constant (self : ModelSelector) :
  min_n_components self <= max_n_components self ->
  (forall n st, exists e, SelectorDIC_body self n st = Raise e) /\
  SelectorDIC_select self = base_model self (n_constant self) /\
  SelectorDIC_select self = SelectorConstant_select self.
Proof.
  intros Hle. split; [|split].
  - apply SelectorDIC_body_raises.
  - apply SelectorDIC_select_nonempty. exact Hle.
  - unfold SelectorConstant_select.
    apply SelectorDIC_select_nonempty. exact Hle.
Qed.

(** C10.  When the search of SelectorCV completes without falling back
    (every candidate fitted and scored on every fold), the model returned
    is the one fitted on the training split of the last fold for the
    best-scoring n: it is trained on the sequences of that split only,
    not refitted on the category's whole data, although the score of n
    is the average over all folds. *)
Theorem SelectorCV_returns_last_fold_model (self : ModelSelector)
  (sc : Z -> F) :
  min_n_components self <= max_n_components self ->
  (forall folds, CV_folds self = Ok folds -> folds <> []) ->
  (forall n, min_n_components self <= n <= max_n_components self ->
             CV_spec self n = Ok (sc n) /\ fgt (sc n) neg_inf = true) ->
  ranked flt sc (candidates self) ->
  exists n m folds train_idx test_idx x_train train_len,
    SelectorCV_select self = Ok (Some m) /\
    min_n_components self <= n <= max_n_components self /\
    (forall i, min_n_components self <= i <= max_n_components self ->
               fgt (sc i) (sc n) = false) /\
    CV_folds self = Ok folds /\
    last_opt folds = Some (train_idx, test_idx) /\
    combine_sequences train_idx (sequences self) = Ok (x_train, train_len) /\
    GaussianHMM_fit n (random_state self) x_train train_len = Ok m.
Proof.
  intros Hle Hne Hsc Hr.
  destruct (SelectorCV_select_first_best self sc Hle Hne Hsc Hr)
    as (n & m & Hn & Hsel & Hlast & _ & Hbest & _).
  destruct (CV_last_fold_model_inv _ _ _ Hlast)
    as (folds & train_idx & test_idx & x_train & train_len &
        Hfolds & Hfold & Htrain & Hfit).
  exists n, m, folds, train_idx, test_idx, x_train, train_len.
  repeat split; try lia; assumption.
Qed.

End Fallback.

(* ================================================================== *)
(** ** The strategies on the executable corpus *)

Import Demo.

Lemma xlt_irrefl (a : xnum) : xlt a a = false.
Proof. destruct a; simpl; [reflexivity | apply Z.ltb_irrefl | reflexivity]. Qed.

Lemma xlt_trans (a b c : xnum) :
  xlt a b = true -> xlt b c = true -> xlt a c = true.
Proof.
  destruct a, b, c; simpl; try congruence.
  rewrite !Z.ltb_lt. lia.
Qed.

Lemma xlt_cotrans (a b c : xnum) :
  xlt a b = true -> xlt a c = true \/ xlt c b = true.
Proof.
  destruct a, b, c; simpl; try congruence; auto.
  rewrite !Z.ltb_lt. lia.
Qed.

(** Scores of the executable library always compare as a total
    preorder. *)
Lemma xlt_ranked (fit_ok : Z -> bool) (loglik : Z -> Z -> Z -> Z)
  (sc : Z -> xnum) (l : list Z) :
  @ranked (lib fit_ok loglik) xlt sc l.
Proof.
  intros i j k _ _ _. split; [apply xlt_irrefl|]. split.
  - apply xlt_trans.
  - apply xlt_cotrans.
Qed.

(** C1, counterexample.  When the fit fails, SelectorConstant.select()
    returns None, not a usable model. *)
Lemma select_returns_model_counterexample :
  ~ returns_usable_model Constant no_fit.
Proof.
  intros [m [H _]]. vm_compute in H. discriminate H.
Qed.

(** C2 (code bug).  On a corpus where every candidate is fitted and
    scored and DIC(n) is -80, -20, 0, -20 for n = 2..5, the selection the
    specification words returns the model with 4 states, and
    SelectorDIC.select() returns the constant model with 3 states: its
    loop never computes a DIC score. *)
Theorem SelectorDIC_select_misses_DIC :
  map (DIC_spec all_fit) [2; 3; 4; 5] =
    [Ok (Num (-80)); Ok (Num (-20)); Ok (Num 0); Ok (Num (-20))] /\
  SelectorDIC_spec all_fit = Ok (Some (model 4 6)) /\
  SelectorDIC_select all_fit = Ok (Some (model 3 6)).
Proof.
  repeat split; vm_compute; reflexivity.
Qed.

Lemma SelectorBIC_select_lowest_witness :
  (forall n m, 2 <= n <= 5 ->
               base_model all_fit n = Ok (Some m) ->
               SelectorBIC_score all_fit (Some m) n = Ok (bic_sc n)) /\
  exists n m,
    2 <= n <= 5 /\
    SelectorBIC_select all_fit = Ok (Some m) /\
    base_model all_fit n = Ok (Some m) /\
    n_components m = n /\
    (forall i, 2 <= i <= 5 -> xlt (bic_sc i) (bic_sc n) = false) /\
    (forall i, 2 <= i < n -> xlt (bic_sc n) (bic_sc i) = true).
Proof.
  apply (SelectorBIC_select_lowest all_fit [Num 1; Num 2]
           ([[Num 3; Num 4]] ++ seqA2 ++ seqA3) bic_sc).
  - reflexivity.
  - cbn. lia.
  - cbn [min_n_components max_n_components all_fit selector].
    intros n Hn.
    exists (model n 6), (Num (peak4 n 6 6)).
    assert (n = 2 \/ n = 3 \/ n = 4 \/ n = 5) as [-> | [-> | [-> | ->]]] by lia;
      repeat split; vm_compute; reflexivity.
  - apply xlt_ranked.
Defined.

(** C4, counterexample.  The fit fails with 3 states only; skipping that
    candidate selects the model with 4 states, and SelectorBIC.select()
    returns the constant model with 2 states. *)
Lemma SelectorBIC_skipping_counterexample :
  base_model gap_at_3 3 = Ok None /\
  SelectorBIC_skipping gap_at_3 = Ok (Some (model 4 6)) /\
  SelectorBIC_select gap_at_3 = Ok (Some (model 2 6)) /\
  SelectorBIC_select gap_at_3 <> SelectorBIC_skipping gap_at_3.
Proof.
  repeat split; try (vm_compute; reflexivity).
  intros H. vm_compute in H. discriminate H.
Qed.

Lemma SelectorBIC_failure_aborts_witness :
  SelectorBIC_select gap_at_3 = base_model gap_at_3 (n_constant gap_at_3).
Proof.
  apply (SelectorBIC_failure_aborts gap_at_3 3).
  - cbn. lia.
  - vm_compute. reflexivity.
Defined.

Lemma SelectorCV_select_best_average_witness :
  exists n m,
    2 <= n <= 5 /\
    SelectorCV_select cv_fit = Ok (Some m) /\
    n_components m = n /\
    CV_spec cv_fit n = Ok (cv_sc n) /\
    (forall i, 2 <= i <= 5 -> xlt (cv_sc n) (cv_sc i) = false) /\
    (forall i, 2 <= i < n -> xlt (cv_sc i) (cv_sc n) = true).
Proof.
  apply (SelectorCV_select_best_average cv_fit cv_sc).
  - cbn. lia.
  - intros folds H. vm_compute in H. injection H as <-. discriminate.
  - cbn [min_n_components max_n_components cv_fit selector].
    intros n Hn.
    assert (n = 2 \/ n = 3 \/ n = 4 \/ n = 5) as [-> | [-> | [-> | ->]]] by lia;
      split; vm_compute; reflexivity.
  - apply xlt_ranked.
Defined.

(** C6, counterexample.  The fit succeeds with 3 states only and the range
    is 3..3: SelectorCV returns the model fitted on the 5 frames of the
    last training split, SelectorConstant the model fitted on all 6. *)
Lemma fallback_invariant_counterexample :
  fits_only_constant only_constant /\
  SelectorCV_select only_constant = Ok (Some (model 3 5)) /\
  SelectorConstant_select only_constant = Ok (Some (model 3 6)) /\
  SelectorCV_select only_constant <> SelectorConstant_select only_constant.
Proof.
  split; [split|].
  - intros n Hn rs X lengths. cbn in Hn |- *. unfold only.
    destruct (Z.eqb_spec n 3); [contradiction | reflexivity].
  - eexists. vm_compute. reflexivity.
  - repeat split; try (vm_compute; reflexivity).
    intros H. vm_compute in H. discriminate H.
Qed.

Lemma fallback_when_only_constant_fits_witness :
  SelectorBIC_select only_constant_wide =
    SelectorConstant_select only_constant_wide /\
  SelectorDIC_select only_constant_wide =
    SelectorConstant_select only_constant_wide /\
  SelectorCV_select only_constant_wide =
    SelectorConstant_select only_constant_wide.
Proof.
  apply (fallback_when_only_constant_fits only_constant_wide 2).
  - intros k Hk rs X lengths. cbn in Hk |- *. unfold only.
    destruct (Z.eqb_spec k 3); [contradiction | reflexivity].
  - cbn. lia.
  - cbn. lia.
  - intros folds H. vm_compute in H. injection H as <-. discriminate.
Defined.

(** C7, counterexample.  When the fit with [n_constant] states fails,
    SelectorConstant.select() returns None: no model with [n_constant]
    states. *)
Lemma SelectorConstant_select_none_counterexample :
  ~ exists m, SelectorConstant_select no_fit = Ok (Some m) /\
              n_components m = n_constant no_fit.
Proof.
  intros [m [H _]]. vm_compute in H. discriminate H.
Qed.

(** C8, counterexample.  With the range 5..2 no strategy raises. *)
Lemma invalid_range_counterexample :
  max_n_components empty_range < min_n_components empty_range /\
  forall s, ~ exists e, select s empty_range = Raise e.
Proof.
  split; [cbn; lia|].
  intros s [e H]. destruct s; vm_compute in H; discriminate H.
Qed.

Lemma empty_range_returns_none_witness :
  candidates empty_range = [] /\
  SelectorBIC_select empty_range = Ok None /\
  SelectorDIC_select empty_range = Ok None /\
  SelectorCV_select empty_range = Ok None.
Proof.
  apply (empty_range_returns_none empty_range). cbn. lia.
Defined.

(** C9, counterexample.  With the range 5..2 the fit with [n_constant]
    states succeeds and SelectorDIC.select() returns None, not that
    model. *)
Lemma SelectorDIC_constant_counterexample :
  base_model empty_range (n_constant empty_range) =
    Ok (Some (model 3 6)) /\
  SelectorDIC_select empty_range = Ok None /\
  SelectorDIC_select empty_range <>
    base_model empty_range (n_constant empty_range).
Proof.
  repeat split; try (vm_compute; reflexivity).
  intros H. vm_compute in H. discriminate H.
Qed.

Lemma SelectorDIC_is_constant_witness :
  (forall n st, exists e, SelectorDIC_body all_fit n st = Raise e) /\
  SelectorDIC_select all_fit = base_model all_fit (n_constant all_fit) /\
  SelectorDIC_select all_fit = SelectorConstant_select all_fit.
Proof.
  apply (SelectorDIC_is_constant all_fit). cbn. lia.
Defined.

Lemma SelectorCV_returns_last_fold_model_witness :
  (exists n m folds train_idx test_idx x_train train_len,
     SelectorCV_select cv_fit = Ok (Some m) /\
     2 <= n <= 5 /\
     (forall i, 2 <= i <= 5 -> xlt (cv_sc n) (cv_sc i) = false) /\
     CV_folds cv_fit = Ok folds /\
     last_opt folds = Some (train_idx, test_idx) /\
     combine_sequences train_idx (sequences cv_fit) =
       Ok (x_train, train_len) /\
     GaussianHMM_fit n (random_state cv_fit) x_train train_len = Ok m) /\
  SelectorCV_select cv_fit = Ok (Some (model 4 5)) /\
  base_model cv_fit 4 = Ok (Some (model 4 6)).
Proof.
  split; [|split; vm_compute; reflexivity].
  apply (SelectorCV_returns_last_fold_model cv_fit cv_sc).
  - cbn. lia.
  - intros folds H. vm_compute in H. injection H as <-. discriminate.
  - cbn [min_n_components max_n_components cv_fit selector].
    intros n Hn.
    assert (n = 2 \/ n = 3 \/ n = 4 \/ n = 5) as [-> | [-> | [-> | ->]]] by lia;
      split; vm_compute; reflexivity.
  - apply xlt_ranked.
Defined.

(* ================================================================== *)
(** ** Construction, candidates and base_model *)

Section Construction.

Context {L : Library}.

Lemma dict_get_absent {V : Type} (d : list (string * V)) (k : string) :
  ~ In k (map fst d) -> dict_get d k = Raise KeyError.
Proof.
  induction d as [|[k' v] d IH]; intros Hk; simpl; [reflexivity|].
  destruct (String.eqb_spec k' k) as [->|Hne].
  - destruct Hk. left. reflexivity.
  - apply IH. intros Hin. apply Hk. right. exact Hin.
Qed.

Lemma dict_get_present {V : Type} (d : list (string * V)) (k : string) :
  In k (map fst d) -> exists v, dict_get d k = Ok v /\ In (k, v) d.
Proof.
  induction d as [|[k' v] d IH]; intros Hk; simpl in *; [destruct Hk|].
  destruct (String.eqb_spec k' k) as [->|Hne].
  - exists v. split; [reflexivity | left; reflexivity].
  - destruct Hk as [Hk|Hk]; [contradiction|].
    destruct (IH Hk) as [v' [Hv' Hin]]. exists v'. split; auto.
Qed.

Lemma dict_get_Raise {V : Type} (d : list (string * V)) (k : string)
  (e : exn) :
  dict_get d k = Raise e -> e = KeyError /\ ~ In k (map fst d).
Proof.
  intros H. split.
  - induction d as [|[k' v] d IH]; simpl in H; [congruence|].
    destruct (String.eqb k' k); [discriminate H | exact (IH H)].
  - intros Hin. destruct (dict_get_present d k Hin) as [v [Hv _]].
    congruence.
Qed.

(** X1.  Constructing a selector fails exactly when the word is missing from
    one of the two dictionaries, and the failure is a KeyError. *)
Theorem ModelSelector_init_KeyError
  (all_word_sequences : list (string * list Obs))
  (all_word_Xlengths : list (string * (Obs * list Z)))
  (word : string) (nc lo hi rs : Z) (v : bool) (e : exn) :
  ModelSelector_init all_word_sequences all_word_Xlengths word nc lo hi rs v
  = Raise e <->
  e = KeyError /\
  (~ In word (map fst all_word_sequences) \/
   ~ In word (map fst all_word_Xlengths)).
Proof.
  unfold ModelSelector_init. split.
  - destruct (dict_get all_word_sequences word) as [sq|e1] eqn:H1;
      cbn [bind].
    + destruct (dict_get all_word_Xlengths word) as [[x l]|e2] eqn:H2;
        cbn [bind]; intros H; [discriminate H|].
      injection H as <-.
      destruct (dict_get_Raise _ _ _ H2) as [-> Habs]. auto.
    + intros H. injection H as <-.
      destruct (dict_get_Raise _ _ _ H1) as [-> Habs]. auto.
  - intros [-> [Habs|Habs]].
    + rewrite (dict_get_absent _ _ Habs). reflexivity.
    + rewrite (dict_get_absent all_word_Xlengths _ Habs).
      destruct (dict_get all_word_sequences word) as [sq|e1] eqn:H1;
        cbn [bind]; [reflexivity|].
      destruct (dict_get_Raise _ _ _ H1) as [-> _]. reflexivity.
Qed.

(** X2.  A constructed selector holds the two dictionaries whole, and its own
    sequences, observations and lengths are the entries bound to its
    word in them. *)
Theorem ModelSelector_init_fields
  (all_word_sequences : list (string * list Obs))
  (all_word_Xlengths : list (string * (Obs * list Z)))
  (word : string) (nc lo hi rs : Z) (v : bool) (self : ModelSelector) :
  ModelSelector_init all_word_sequences all_word_Xlengths word nc lo hi rs v
  = Ok self ->
  words self = all_word_sequences /\
  hwords self = all_word_Xlengths /\
  this_word self = word /\
  dict_get (words self) (this_word self) = Ok (sequences self) /\
  dict_get (hwords self) (this_word self) = Ok (X self, lengths self) /\
  In (this_word self) (map fst (words self)) /\
  (n_constant self, min_n_components self, max_n_components self,
   random_state self, verbose self) = (nc, lo, hi, rs, v).
Proof.
  unfold ModelSelector_init. intros H.
  bind_inv H as sq Hsq. bind_inv H as [x l] Hxl.
  injection H as <-. cbn.
  repeat split; try assumption.
  destruct (in_dec string_dec word (map fst all_word_sequences))
    as [Hin|Hout]; [exact Hin|].
  rewrite (dict_get_absent _ _ Hout) in Hsq. discriminate Hsq.
Qed.

Lemma GaussianHMM_fit_seed (n rs : Z) (X : Obs) (lengths : list Z)
  (m : GaussianHMM) :
  GaussianHMM_fit n rs X lengths = Ok m -> hmm_random_state m = rs.
Proof.
  unfold GaussianHMM_fit. destruct (em_fit n rs X lengths); intros H.
  - injection H as <-. reflexivity.
  - discriminate H.
Qed.

(** X3.  base_model turns every failure of the fit into None and never
    raises; a model it returns is the fit of the selector's own data, with
    the requested state count and the selector's seed. *)
Theorem base_model_catches_fit_errors (self : ModelSelector) (n : Z) :
  (exists m,
     fit_spec self n = Ok m /\ base_model self n = Ok (Some m) /\
     n_components m = n /\ hmm_random_state m = random_state self) \/
  (exists e, fit_spec self n = Raise e /\ base_model self n = Ok None).
Proof.
  unfold base_model, fit_spec.
  destruct (GaussianHMM_fit n (random_state self) (X self) (lengths self))
    as [m|e] eqn:Hfit.
  - left. exists m. repeat split.
    + exact (GaussianHMM_fit_n_components _ _ _ _ _ Hfit).
    + exact (GaussianHMM_fit_seed _ _ _ _ _ Hfit).
  - right. exists e. split; reflexivity.
Qed.

Lemma py_range_sorted (k : nat) :
  forall lo,
    StronglySorted Z.lt (map (fun i => lo + Z.of_nat i) (seq 0 k)).
Proof.
  induction k as [|k IH]; intros lo; [constructor|].
  cbn [seq map]. rewrite <- seq_shift, map_map.
  rewrite (map_ext (fun i => lo + Z.of_nat (S i))
                   (fun i => (lo + 1) + Z.of_nat i))
    by (intros i; lia).
  constructor; [apply IH|].
  apply Forall_forall. intros x Hx.
  apply in_map_iff in Hx. destruct Hx as [i [<- _]]. lia.
Qed.

(** X4.  The candidates searched are the state counts from min_n_components
    to max_n_components, both included, each once and in ascending
    order; there is none when the range is inverted. *)
Theorem candidates_inclusive_ascending (self : ModelSelector) :
  (forall n, In n (candidates self) <->
             min_n_components self <= n <= max_n_components self) /\
  StronglySorted Z.lt (candidates self) /\
  len (candidates self) =
    Z.max 0 (max_n_components self - min_n_components self + 1).
Proof.
  split; [|split].
  - intros n. unfold candidates. rewrite py_range_In. lia.
  - unfold candidates, py_range. apply py_range_sorted.
  - unfold candidates, py_range, len.
    rewrite length_map, length_seq. lia.
Qed.

End Construction.

(* ================================================================== *)
(** ** Failing candidates and scores that never win *)

Section Degenerate.

Context {L : Library}.

Lemma SelectorBIC_body_raises (self : ModelSelector) (n : Z) (e : exn) :
  BIC_spec self n = Raise e ->
  forall st, exists e', SelectorBIC_body self n st = Raise e'.
Proof.
  intros Hspec [best_score best_model]. unfold SelectorBIC_body.
  destruct (fit_spec self n) as [m|e1] eqn:Hfit.
  - rewrite (base_model_fit_spec _ _ _ Hfit). cbn [bind].
    rewrite (SelectorBIC_score_spec _ _ _ Hfit), Hspec.
    exists e. reflexivity.
  - exists AttributeError.
    unfold fit_spec in Hfit. unfold base_model. rewrite Hfit. reflexivity.
Qed.

(** X5.  SelectorBIC falls back to base_model(n_constant) as soon as one
    candidate of the range cannot be fitted or scored, or the category has
    no frame to read the feature count from. *)
Theorem SelectorBIC_any_failure_falls_back (self : ModelSelector) (n : Z)
  (e : exn) :
  min_n_components self <= n <= max_n_components self ->
  BIC_spec self n = Raise e ->
  SelectorBIC_select self = base_model self (n_constant self).
Proof.
  intros Hn Hspec. unfold SelectorBIC_select.
  destruct (for_in_raises_at (SelectorBIC_body self) n (candidates self))
    with (s := (inf, @None GaussianHMM)) as [e' He'].
  - apply candidates_In. exact Hn.
  - exact (SelectorBIC_body_raises self n e Hspec).
  - rewrite He'. reflexivity.
Qed.

Lemma SelectorBIC_loop_keeps (self : ModelSelector) (l : list Z) (b : F)
  (bm : option GaussianHMM) :
  (forall n, In n l ->
             exists s, BIC_spec self n = Ok s /\ flt s b = false) ->
  for_in l (SelectorBIC_body self) (b, bm) = Ok (b, bm).
Proof.
  induction l as [|n l IH]; intros Hl; [reflexivity|].
  destruct (Hl n (or_introl eq_refl)) as [s [Hs Hlt]].
  destruct (BIC_spec_fitted _ _ _ Hs) as [m Hm].
  cbn [for_in]. unfold SelectorBIC_body at 1.
  rewrite (base_model_fit_spec _ _ _ Hm). cbn [bind].
  rewrite (SelectorBIC_score_spec _ _ _ Hm), Hs. cbn [bind].
  rewrite Hlt. apply IH. intros i Hi. apply Hl. right. exact Hi.
Qed.

(** X6.  When every candidate is fitted and scored but no score is below +inf
    (a log-likelihood of -inf, or a NaN), SelectorBIC returns None: the
    search completes, so the constant fallback is not used. *)
Theorem SelectorBIC_no_score_below_inf (self : ModelSelector) :
  (forall n, min_n_components self <= n <= max_n_components self ->
             exists s, BIC_spec self n = Ok s /\ flt s inf = false) ->
  SelectorBIC_select self = Ok None.
Proof.
  intros H. unfold SelectorBIC_select.
  rewrite SelectorBIC_loop_keeps; [reflexivity|].
  intros n Hn. apply H. apply candidates_In. exact Hn.
Qed.

Lemma SelectorCV_fold_raises (self : ModelSelector) (n : Z)
  (fold : list nat * list nat) (e : exn) :
  CV_fold_spec self n fold = Raise e ->
  forall st, SelectorCV_fold self n fold st = Raise e.
Proof.
  unfold CV_fold_spec, SelectorCV_fold.
  destruct fold as [train_idx test_idx]. cbn [fst snd].
  intros H [scores v].
  destruct (combine_sequences train_idx (sequences self))
    as [[x_train train_len]|e1]; cbn [bind] in *; [|congruence].
  destruct (GaussianHMM_fit n (random_state self) x_train train_len)
    as [m|e2]; cbn [bind] in *; [|congruence].
  destruct (combine_sequences test_idx (sequences self))
    as [[x_test test_len]|e3]; cbn [bind] in *; [|congruence].
  destruct (GaussianHMM_score m x_test test_len) as [s|e4];
    cbn [bind] in *; [discriminate H | congruence].
Qed.

Lemma SelectorCV_folds_loop_raises (self : ModelSelector) (n : Z)
  (folds : list (list nat * list nat)) (e : exn) :
  mapM (CV_fold_spec self n) folds = Raise e ->
  forall acc v, for_in folds (SelectorCV_fold self n) (acc, v) = Raise e.
Proof.
  induction folds as [|fold folds IH]; intros H acc v; [discriminate H|].
  cbn [mapM] in H. cbn [for_in].
  destruct (CV_fold_spec self n fold) as [[logL m]|e1] eqn:Hfold;
    cbn [bind] in H.
  - rewrite (SelectorCV_fold_spec _ _ _ _ _ acc v Hfold).
    apply IH.
    destruct (mapM (CV_fold_spec self n) folds) as [rs|e2];
      cbn [bind] in H; [discriminate H | congruence].
  - injection H as <-.
    rewrite (SelectorCV_fold_raises _ _ _ _ Hfold). reflexivity.
Qed.

Lemma SelectorCV_body_raises (self : ModelSelector) (n : Z) (e : exn) :
  CV_spec self n = Raise e ->
  forall st,
    SelectorCV_body self (Z.min 3 (len (sequences self))) n st = Raise e.
Proof.
  intros H [[best_score best_model] v]. unfold SelectorCV_body.
  unfold CV_spec in H. fold (CV_folds self).
  destruct (CV_folds self) as [folds|e1]; cbn [bind] in *; [|congruence].
  destruct (mapM (CV_fold_spec self n) folds) as [rs|e2] eqn:Hrs;
    cbn [bind] in H; [discriminate H|].
  injection H as <-.
  rewrite (SelectorCV_folds_loop_raises _ _ _ _ Hrs). reflexivity.
Qed.

(** X7.  SelectorCV falls back to base_model(n_constant) as soon as, for one
    candidate of the range, the partitioner raises or a fold cannot be
    combined, fitted or scored. *)
Theorem SelectorCV_any_failure_falls_back (self : ModelSelector) (n : Z)
  (e : exn) :
  min_n_components self <= n <= max_n_components self ->
  CV_spec self n = Raise e ->
  SelectorCV_select self = base_model self (n_constant self).
Proof.
  intros Hn Hspec. unfold SelectorCV_select.
  destruct (for_in_raises_at
              (SelectorCV_body self (Z.min 3 (len (sequences self))))
              n (candidates self))
    with (s := (neg_inf, @None GaussianHMM, @None GaussianHMM))
    as [e' He'].
  - apply candidates_In. exact Hn.
  - intros st. exists e. exact (SelectorCV_body_raises self n e Hspec st).
  - rewrite He'. reflexivity.
Qed.

Lemma SelectorCV_loop_keeps (self : ModelSelector) (l : list Z) (b : F)
  (bm : option GaussianHMM) :
  (forall n, In n l ->
             exists s, CV_spec self n = Ok s /\ fgt s b = false) ->
  forall v,
  exists v',
    for_in l (SelectorCV_body self (Z.min 3 (len (sequences self))))
      (b, bm, v) = Ok (b, bm, v').
Proof.
  induction l as [|n l IH]; intros Hl v; [exists v; reflexivity|].
  destruct (Hl n (or_introl eq_refl)) as [s [Hs Hgt]].
  unfold CV_spec in Hs.
  bind_inv Hs as folds Hfolds. bind_inv Hs as rs Hrs. injection Hs as <-.
  cbn [for_in]. unfold SelectorCV_body at 1.
  unfold CV_folds in Hfolds. rewrite Hfolds. cbn [bind].
  rewrite (SelectorCV_folds_loop _ _ _ _ [] v Hrs). cbn [bind app].
  rewrite Hgt. apply IH. intros i Hi. apply Hl. right. exact Hi.
Qed.

(** X8.  When every candidate is fitted and scored on every fold but no
    average is above -inf, SelectorCV returns None: the search completes,
    so the constant fallback is not used. *)
Theorem SelectorCV_no_score_above_neg_inf (self : ModelSelector) :
  (forall n, min_n_components self <= n <= max_n_components self ->
             exists s, CV_spec self n = Ok s /\ fgt s neg_inf = false) ->
  SelectorCV_select self = Ok None.
Proof.
  intros H. unfold SelectorCV_select.
  destruct (SelectorCV_loop_keeps self (candidates self) neg_inf None)
    with (v := @None GaussianHMM) as [v' Hloop].
  - intros n Hn. apply H. apply candidates_In. exact Hn.
  - rewrite Hloop. reflexivity.
Qed.

(** X9.  The inner loop of SelectorDIC scores the candidate on the data of
    every category but the selector's own, once each and in the order of
    the dictionary, and stops at the first category that has no
    observations entry or cannot be scored. *)
Theorem SelectorDIC_scores_other_words (self : ModelSelector)
  (m : GaussianHMM) :
  SelectorDIC_scores self (Some m) =
  mapM (fun w =>
          ' (x_word, word_len) <- dict_get (hwords self) w ;;
          GaussianHMM_score m x_word word_len)
       (other_words self).
Proof.
  unfold SelectorDIC_scores, other_words.
  set (g := fun w =>
              ' (x_word, word_len) <- dict_get (hwords self) w ;;
              GaussianHMM_score m x_word word_len).
  assert (Hgen : forall l acc,
             for_in l
               (fun word scores =>
                  if negb (String.eqb word (this_word self))
                  then
                    ' (x_word, word_len) <- dict_get (hwords self) word ;;
                    logL <- method_score (Some m) x_word word_len ;;
                    Ok (scores ++ [logL])
                  else Ok scores) acc =
             (rs <- mapM g
                      (filter (fun w =>
                                 negb (String.eqb w (this_word self))) l) ;;
              Ok (acc ++ rs))).
  { induction l as [|w l IH]; intros acc.
    - simpl. rewrite app_nil_r. reflexivity.
    - cbn [for_in filter].
      destruct (negb (String.eqb w (this_word self))).
      + cbn [mapM]. unfold g at 1.
        destruct (dict_get (hwords self) w) as [[x_word word_len]|e];
          cbn [bind]; [|reflexivity].
        unfold method_score.
        destruct (GaussianHMM_score m x_word word_len) as [logL|e];
          cbn [bind]; [|reflexivity].
        rewrite IH.
        destruct (mapM g
                    (filter (fun w0 =>
                               negb (String.eqb w0 (this_word self))) l))
          as [rs|e]; cbn [bind]; [|reflexivity].
        rewrite <- app_assoc. reflexivity.
      + apply IH. }
  rewrite Hgen.
  destruct (mapM g
              (filter (fun w => negb (String.eqb w (this_word self)))
                 (map fst (words self)))); reflexivity.
Qed.

End Degenerate.

(* ================================================================== *)
(** ** Where a returned model comes from *)

Section Provenance.

Context {L : Library}.

Lemma base_model_provenance (self : ModelSelector) (n : Z)
  (m : GaussianHMM) :
  base_model self n = Ok (Some m) -> fit_spec self (n_components m) = Ok m.
Proof.
  intros H. apply base_model_Some in H.
  rewrite (GaussianHMM_fit_n_components _ _ _ _ _ H). exact H.
Qed.

Lemma SelectorBIC_body_provenance (self : ModelSelector) (n : Z)
  (st st' : F * option GaussianHMM) :
  (forall m, snd st = Some m -> fit_spec self (n_components m) = Ok m) ->
  SelectorBIC_body self n st = Ok st' ->
  forall m, snd st' = Some m -> fit_spec self (n_components m) = Ok m.
Proof.
  intros Hst H. destruct st as [best_score best_model].
  unfold SelectorBIC_body in H.
  bind_inv H as base_hmm Hbase. bind_inv H as score Hscore.
  destruct (flt score best_score); injection H as <-; cbn [snd].
  - intros m ->. exact (base_model_provenance _ _ _ Hbase).
  - exact Hst.
Qed.

(** X10.  A model returned by SelectorConstant, SelectorBIC or SelectorDIC is
    always a fit of the category's whole data (X, lengths) with the
    model's own state count: only SelectorCV returns models trained on a
    part of the data. *)
Theorem select_returns_full_data_fit (s : strategy) (self : ModelSelector)
  (m : GaussianHMM) :
  s <> CV ->
  select s self = Ok (Some m) ->
  fit_spec self (n_components m) = Ok m.
Proof.
  intros Hs Hsel. destruct s; simpl in Hsel; [| | |congruence].
  - exact (base_model_provenance _ _ _ Hsel).
  - unfold SelectorBIC_select in Hsel.
    destruct (for_in (candidates self) (SelectorBIC_body self) (inf, None))
      as [[bs bm]|e] eqn:Hloop; cbn [bind try_except] in Hsel.
    + injection Hsel as ->.
      apply (for_in_invariant
               (fun st => forall m, snd st = Some m ->
                                    fit_spec self (n_components m) = Ok m)
               (SelectorBIC_body self) (candidates self))
        with (s := (inf, None)) (s' := (bs, Some m)).
      * intros n st st' _. apply SelectorBIC_body_provenance.
      * intros m' Hm'. discriminate Hm'.
      * exact Hloop.
      * reflexivity.
    + exact (base_model_provenance _ _ _ Hsel).
  - destruct (Z_le_gt_dec (min_n_components self) (max_n_components self))
      as [Hle|Hgt].
    + rewrite (SelectorDIC_select_nonempty self Hle) in Hsel.
      exact (base_model_provenance _ _ _ Hsel).
    + unfold SelectorDIC_select, candidates in Hsel.
      rewrite py_range_nil in Hsel by lia. discriminate Hsel.
Qed.

Lemma SelectorCV_fold_seed (self : ModelSelector) (n : Z)
  (fold : list nat * list nat) (st st' : list F * option GaussianHMM) :
  SelectorCV_fold self n fold st = Ok st' ->
  forall m, snd st' = Some m -> hmm_random_state m = random_state self.
Proof.
  intros H. destruct fold as [train_idx test_idx].
  destruct st as [scores v]. unfold SelectorCV_fold in H.
  bind_inv H as [x_train train_len] Htrain.
  bind_inv H as base_hmm Hfit.
  bind_inv H as [x_test test_len] Htest.
  bind_inv H as logL HlogL.
  injection H as <-. cbn [snd]. intros m [= <-].
  exact (GaussianHMM_fit_seed _ _ _ _ _ Hfit).
Qed.

Lemma SelectorCV_body_seed (self : ModelSelector) (splits n : Z)
  (st st' : F * option GaussianHMM * option GaussianHMM) :
  (forall m, snd (fst st) = Some m \/ snd st = Some m ->
             hmm_random_state m = random_state self) ->
  SelectorCV_body self splits n st = Ok st' ->
  forall m, snd (fst st') = Some m \/ snd st' = Some m ->
            hmm_random_state m = random_state self.
Proof.
  intros Hst H. destruct st as [[best_score best_model] base_hmm].
  cbn [fst snd] in Hst. unfold SelectorCV_body in H.
  bind_inv H as folds Hfolds.
  bind_inv H as [scores base_hmm'] Hloop.
  assert (Hv : forall m, base_hmm' = Some m ->
                         hmm_random_state m = random_state self).
  { apply (for_in_invariant
             (fun st => forall m, snd st = Some m ->
                                  hmm_random_state m = random_state self)
             (SelectorCV_fold self n) folds)
      with (s := ([], base_hmm)) (s' := (scores, base_hmm')).
    - intros fold s s' _ _. apply SelectorCV_fold_seed.
    - cbn [snd]. intros m Hm. apply Hst. right. exact Hm.
    - exact Hloop. }
  destruct (fgt (np_mean scores) best_score).
  - bind_inv H as m' Hm'. injection H as <-. cbn [fst snd].
    destruct base_hmm' as [m''|]; [|discriminate Hm'].
    injection Hm' as ->.
    intros m [Hm|Hm]; apply Hv; exact Hm.
  - injection H as <-. cbn [fst snd].
    intros m [Hm|Hm]; [apply Hst; left; exact Hm | apply Hv; exact Hm].
Qed.

(** X11.  Whatever the strategy, a returned model was fitted with the
    selector's own random_state: no strategy fits with another seed. *)
Theorem select_uses_selector_seed (s : strategy) (self : ModelSelector)
  (m : GaussianHMM) :
  select s self = Ok (Some m) ->
  hmm_random_state m = random_state self.
Proof.
  intros Hsel.
  assert (Hfull : forall m', fit_spec self (n_components m') = Ok m' ->
                             hmm_random_state m' = random_state self).
  { intros m' H. exact (GaussianHMM_fit_seed _ _ _ _ _ H). }
  destruct s; simpl in Hsel.
  - apply Hfull. exact (base_model_provenance _ _ _ Hsel).
  - unfold SelectorBIC_select in Hsel.
    destruct (for_in (candidates self) (SelectorBIC_body self) (inf, None))
      as [[bs bm]|e] eqn:Hloop; cbn [bind try_except] in Hsel.
    + injection Hsel as ->. apply Hfull.
      apply (for_in_invariant
               (fun st => forall m, snd st = Some m ->
                                    fit_spec self (n_components m) = Ok m)
               (SelectorBIC_body self) (candidates self))
        with (s := (inf, None)) (s' := (bs, Some m)).
      * intros n st st' _. apply SelectorBIC_body_provenance.
      * intros m' Hm'. discriminate Hm'.
      * exact Hloop.
      * reflexivity.
    + apply Hfull. exact (base_model_provenance _ _ _ Hsel).
  - destruct (Z_le_gt_dec (min_n_components self) (max_n_components self))
      as [Hle|Hgt].
    + rewrite (SelectorDIC_select_nonempty self Hle) in Hsel.
      apply Hfull. exact (base_model_provenance _ _ _ Hsel).
    + unfold SelectorDIC_select, candidates in Hsel.
      rewrite py_range_nil in Hsel by lia. discriminate Hsel.
  - unfold SelectorCV_select in Hsel.
    destruct (for_in (candidates self)
                (SelectorCV_body self (Z.min 3 (len (sequences self))))
                (neg_inf, None, None))
      as [[[bs bm] v]|e] eqn:Hloop; cbn [bind try_except] in Hsel.
    + injection Hsel as ->.
      apply (for_in_invariant
               (fun st => forall m,
                    snd (fst st) = Some m \/ snd st = Some m ->
                    hmm_random_state m = random_state self)
               (SelectorCV_body self (Z.min 3 (len (sequences self))))
               (candidates self))
        with (s := (neg_inf, None, None)) (s' := (bs, Some m, v)).
      * intros n st st' _. apply SelectorCV_body_seed.
      * cbn [fst snd]. intros m' [Hm'|Hm']; discriminate Hm'.
      * exact Hloop.
      * left. reflexivity.
    + apply Hfull. exact (base_model_provenance _ _ _ Hsel).
Qed.

End Provenance.

(* ================================================================== *)
(** ** The same on the executable corpus *)

Lemma ModelSelector_init_fields_witness :
  words all_fit = corpus_sequences /\
  hwords all_fit = corpus_Xlengths /\
  this_word all_fit = "A"%string /\
  dict_get (words all_fit) (this_word all_fit) = Ok (sequences all_fit) /\
  dict_get (hwords all_fit) (this_word all_fit) =
    Ok (X all_fit, lengths all_fit) /\
  In (this_word all_fit) (map fst (words all_fit)) /\
  (n_constant all_fit, min_n_components all_fit, max_n_components all_fit,
   random_state all_fit, verbose all_fit) = (3, 2, 5, 14, false).
Proof.
  apply (@ModelSelector_init_fields (lib always peak4) corpus_sequences
           corpus_Xlengths "A"%string 3 2 5 14 false all_fit).
  vm_compute. reflexivity.
Defined.

Lemma SelectorBIC_any_failure_falls_back_witness :
  SelectorBIC_select no_frames = base_model no_frames (n_constant no_frames).
Proof.
  apply (SelectorBIC_any_failure_falls_back no_frames 2 IndexError).
  - cbn. lia.
  - vm_compute. reflexivity.
Defined.

Lemma SelectorBIC_no_score_below_inf_witness :
  SelectorBIC_select zero_likelihood = Ok None.
Proof.
  apply (SelectorBIC_no_score_below_inf zero_likelihood).
  cbn [min_n_components max_n_components zero_likelihood].
  intros n Hn. exists PInf.
  assert (n = 2 \/ n = 3 \/ n = 4 \/ n = 5) as [-> | [-> | [-> | ->]]] by lia;
    split; vm_compute; reflexivity.
Defined.

Lemma SelectorCV_any_failure_falls_back_witness :
  SelectorCV_select single_sequence =
  base_model single_sequence (n_constant single_sequence).
Proof.
  apply (SelectorCV_any_failure_falls_back single_sequence 2 ValueError).
  - cbn. lia.
  - vm_compute. reflexivity.
Defined.

Lemma SelectorCV_no_score_above_neg_inf_witness :
  SelectorCV_select zero_likelihood = Ok None.
Proof.
  apply (SelectorCV_no_score_above_neg_inf zero_likelihood).
  cbn [min_n_components max_n_components zero_likelihood].
  intros n Hn. exists NInf.
  assert (n = 2 \/ n = 3 \/ n = 4 \/ n = 5) as [-> | [-> | [-> | ->]]] by lia;
    split; vm_compute; reflexivity.
Defined.

Lemma select_returns_full_data_fit_witness :
  fit_spec all_fit (n_components (@model always peak4 4 6)) =
  Ok (model 4 6).
Proof.
  apply (select_returns_full_data_fit BIC all_fit (model 4 6)).
  - discriminate.
  - vm_compute. reflexivity.
Defined.

Lemma select_uses_selector_seed_witness :
  hmm_random_state (@model always heldout4 4 5) = random_state cv_fit.
Proof.
  apply (select_uses_selector_seed CV cv_fit (model 4 5)).
  vm_compute. reflexivity.
Defined.
